(** * The message-processing pipeline of [app/agents/chat_agent.py]

    A shallow embedding of [GroqChatModel] and [ChatAgent]: Python values
    with their truthiness, exceptions with [try]/[except], the process-wide
    logger and the calls that leave the module (the Groq client, the
    document processor, the memory manager) threaded through an explicit
    world. *)

From Stdlib Require Import String List ZArith Bool Lia.
From Stdlib Require Import PrimFloat.
From stdpp Require Import base option list strings gmap pretty.

Import ListNotations.
Open Scope string_scope.

(** ** Python values *)

(** The values a [Dict[str, Any]] configuration holds here: [None],
    booleans, integers, floats (IEEE doubles, as in CPython) and strings. *)
Inductive PyVal : Type :=
  | PyNone
  | PyBool (b : bool)
  | PyInt (z : Z)
  | PyFloat (f : float)
  | PyStr (s : string).

(** [bool(v)]: what [if v:] and [not v] test. *)
Definition truthy (v : PyVal) : bool :=
  match v with
  | PyNone => false
  | PyBool b => b
  | PyInt z => negb (Z.eqb z 0)
  | PyFloat f => negb (PrimFloat.eqb f 0%float)
  | PyStr s => negb (String.eqb s "")
  end.

(** [0 <= v <= 1] for a float [v]; [false] for any other value. *)
Definition in_unit_interval (v : PyVal) : bool :=
  match v with
  | PyFloat f => PrimFloat.leb 0%float f && PrimFloat.leb f 1%float
  | _ => false
  end.

(** The line feed, [\n]. *)
Definition NL : string := String (Ascii.ascii_of_nat 10) EmptyString.

(** [d.get(k)] and [d.get(k, default)] on a dict with string keys. *)
Definition dict_get (d : gmap string PyVal) (k : string) : PyVal :=
  default PyNone (d !! k).

Definition dict_get_or (d : gmap string PyVal) (k : string) (dflt : PyVal) : PyVal :=
  default dflt (d !! k).

(** ** Exceptions and results *)

(** An instance of [Exception], the errors an [except Exception] clause
    catches: its class name and [str(e)]. Interpreter signals that are not
    instances of [Exception] ([KeyboardInterrupt], [SystemExit]) are not
    failures of a step and are left out. *)
Record Exn : Type := mkExn { exn_class : string; exn_str : string }.

Definition ValueError (msg : string) : Exn := mkExn "ValueError" msg.
Definition IndexError (msg : string) : Exn := mkExn "IndexError" msg.

Inductive Res (A : Type) : Type :=
  | Ok (a : A)
  | Raise (e : Exn).
Arguments Ok {A} a.
Arguments Raise {A} e.

(** ** Data exchanged with the collaborators *)

(** [langchain.schema] messages. [ChatMessage] stands for every
    [BaseMessage] that is none of the three classes [_generate] tests. *)
Inductive BaseMessage : Type :=
  | HumanMessage (content : PyVal)
  | AIMessage (content : PyVal)
  | SystemMessage (content : PyVal)
  | ChatMessage (role : string) (content : PyVal).

Definition content (m : BaseMessage) : PyVal :=
  match m with
  | HumanMessage c | AIMessage c | SystemMessage c | ChatMessage _ c => c
  end.

Record ChatGeneration : Type := mkChatGeneration { cg_message : BaseMessage }.
Record ChatResult : Type := mkChatResult { generations : list ChatGeneration }.

(** The [{"role": ..., "content": ...}] dict sent to the provider. *)
Record ChatDict : Type := mkChatDict { cd_role : string; cd_content : PyVal }.

(** The keyword arguments of [client.chat.completions.create]. *)
Record Request : Type := mkRequest {
  req_model : PyVal;
  req_messages : list ChatDict;
  req_temperature : PyVal;
  req_stop : option (list string)
}.

(** The provider's answer: [completion.choices[i].message.content], a
    text or whatever else the provider put there ([None] for an answer
    without text). *)
Record Choice : Type := mkChoice { choice_content : PyVal }.
Record Completion : Type := mkCompletion { choices : list Choice }.

(** A [Document] of the document processor. *)
Record Document : Type := mkDocument { page_content : string }.

Inductive Level : Type := INFO | ERROR.
Definition LogRecord : Type := (Level * string)%type.

(** ** The collaborators outside the module *)

(** Everything the module calls but does not define. Each call may change
    the collaborators' state and may raise. *)
Class Externals : Type := {
  ExtState : Type;
  GroqClient : Type;
  DocumentProcessor : Type;
  (** [groq.Groq(api_key=...)] *)
  groq_Groq : PyVal -> ExtState -> Res GroqClient * ExtState;
  (** [client.chat.completions.create(...)] *)
  completions_create : GroqClient -> Request -> ExtState -> Res Completion * ExtState;
  (** [DocumentProcessor()] *)
  DocumentProcessor_new : ExtState -> Res DocumentProcessor * ExtState;
  (** [doc_processor.process_text(context)] *)
  process_text : DocumentProcessor -> PyVal -> ExtState -> Res (list Document) * ExtState;
  (** [repr] of a float, as CPython prints it. *)
  float_repr : float -> string;
  (** [cls(content=v)] for a [langchain] message class named [cls]: the
      constructor validates [v] and gives the content the message holds, or
      raises its [ValidationError]. A string is kept as it is and [None] is
      refused; what becomes of other values is the library's business. *)
  message_content : string -> PyVal -> Res PyVal;
  message_content_str : forall cls s, message_content cls (PyStr s) = Ok (PyStr s);
  message_content_None : forall cls c, message_content cls PyNone <> Ok c
}.

Section Monad.
Context {X : Externals}.

(** [str(v)], as an f-string formats it. *)
Definition py_str (v : PyVal) : string :=
  match v with
  | PyNone => "None"
  | PyBool true => "True"
  | PyBool false => "False"
  | PyInt z => pretty z
  | PyFloat f => float_repr f
  | PyStr s => s
  end.

(** The object handed to [ChatAgent.initialize]: its truth value and,
    when it has one, its [get_relevant_context] method. *)
Record MemoryManager : Type := mkMemoryManager {
  mm_bool : bool;
  get_relevant_context : option (string -> ExtState -> Res PyVal * ExtState)
}.

(** ** The world and the monad of the module's methods *)

(** [log] is what [logging] has emitted, [sent] the requests that reached
    the provider (oldest first), [ext] the collaborators' state. *)
Record World : Type := mkWorld {
  log : list LogRecord;
  sent : list Request;
  ext : ExtState
}.

Definition M (A : Type) : Type := World -> Res A * World.

Definition ret {A} (a : A) : M A := fun w => (Ok a, w).

Definition raise {A} (e : Exn) : M A := fun w => (Raise e, w).

Definition bind {A B} (m : M A) (k : A -> M B) : M B :=
  fun w =>
    match m w with
    | (Ok a, w') => k a w'
    | (Raise e, w') => (Raise e, w')
    end.

(** [try: m  except Exception as e: h e] *)
Definition try_except {A} (m : M A) (h : Exn -> M A) : M A :=
  fun w =>
    match m w with
    | (Ok a, w') => (Ok a, w')
    | (Raise e, w') => h e w'
    end.

Definition emit (lvl : Level) (msg : string) (w : World) : World :=
  mkWorld (log w ++ [(lvl, msg)]) (sent w) (ext w).

Definition logging_info (msg : string) : M unit := fun w => (Ok tt, emit INFO msg w).
Definition logging_error (msg : string) : M unit := fun w => (Ok tt, emit ERROR msg w).

(** A call to a collaborator. *)
Definition call {A} (f : ExtState -> Res A * ExtState) : M A :=
  fun w => let '(r, x) := f (ext w) in (r, mkWorld (log w) (sent w) x).

(** The provider call; the request is recorded whether or not it succeeds. *)
Definition create (c : GroqClient) (q : Request) : M Completion :=
  fun w =>
    let '(r, x) := completions_create c q (ext w) in
    (r, mkWorld (log w) (sent w ++ [q]) x).

(** [l[i]] for a list and an index [i >= 0]. *)
Definition py_getitem {A} (l : list A) (i : nat) : M A :=
  match l !! i with
  | Some a => ret a
  | None => raise (IndexError "list index out of range")
  end.

End Monad.

Notation "'do' x <- m ; k" := (bind m (fun x => k))
  (at level 10, x name, m at level 100, k at level 200).

(** ** [class GroqChatModel] *)

Section Agent.
Context {X : Externals}.

Record GroqChatModel : Type := mkGroqChatModel {
  _client : GroqClient;
  _model : PyVal;
  _temperature : PyVal
}.

(** The read-only properties. *)
Definition client (self : GroqChatModel) : GroqClient := _client self.
Definition model (self : GroqChatModel) : PyVal := _model self.
Definition temperature (self : GroqChatModel) : PyVal := _temperature self.
Definition _llm_type (self : GroqChatModel) : string := "groq".

(** [GroqChatModel.__init__(api_key, model, temperature)]: the one step
    that can fail is building the client. *)
Definition GroqChatModel_init (api_key model temperature : PyVal) : M GroqChatModel :=
  do c <- call (groq_Groq api_key);
  ret (mkGroqChatModel c model temperature).

(** The validating constructors [HumanMessage(content=v)],
    [AIMessage(content=v)] and [SystemMessage(content=v)]. *)
Definition construct (cls : string) (k : PyVal -> BaseMessage) (v : PyVal) : M BaseMessage :=
  match message_content cls v with
  | Ok c => ret (k c)
  | Raise e => raise e
  end.

Definition new_HumanMessage : PyVal -> M BaseMessage := construct "HumanMessage" HumanMessage.
Definition new_AIMessage : PyVal -> M BaseMessage := construct "AIMessage" AIMessage.
Definition new_SystemMessage : PyVal -> M BaseMessage :=
  construct "SystemMessage" SystemMessage.

(** One iteration of the loop over [messages]: the [isinstance] chain. *)
Definition append_chat_message (chat_messages : list ChatDict) (msg : BaseMessage)
  : list ChatDict :=
  match msg with
  | HumanMessage c => (chat_messages ++ [mkChatDict "user" c])%list
  | AIMessage c => (chat_messages ++ [mkChatDict "assistant" c])%list
  | SystemMessage c => (chat_messages ++ [mkChatDict "system" c])%list
  | ChatMessage _ _ => chat_messages
  end.

(** [chat_messages = []; for msg in messages: ...] *)
Definition chat_messages_of (messages : list BaseMessage) : list ChatDict :=
  fold_left append_chat_message messages [].

(** [GroqChatModel._generate(messages, stop)] *)
Definition _generate (self : GroqChatModel) (messages : list BaseMessage)
    (stop : option (list string)) : M ChatResult :=
  try_except
    (let chat_messages := chat_messages_of messages in
     do completion <- create (client self)
                        (mkRequest (model self) chat_messages (temperature self) stop);
     do choice <- py_getitem (choices completion) 0;
     do message <- new_AIMessage (choice_content choice);
     ret (mkChatResult [mkChatGeneration message]))
    (fun e =>
       do _ <- logging_error ("Error generating response: " ++ exn_str e);
       raise e).

(** ** [class ChatAgent] *)

Record ChatAgent : Type := mkChatAgent {
  llm : GroqChatModel;
  doc_processor : DocumentProcessor;
  memory : option MemoryManager;
  system_prompt : PyVal
}.

(** The result dict of [process_message]. *)
Record PipelineResult : Type := mkPipelineResult {
  response : PyVal;
  source_documents : list Document
}.

Definition DEFAULT_MODEL : string := "mixtral-8x7b-32768".

#[local] Set Warnings "-inexact-float".
Definition DEFAULT_TEMPERATURE : float := 0.7%float.

Definition DEFAULT_SYSTEM_PROMPT : string := "
You are an advanced multi-modal AI assistant with superior cognitive abilities, domain expertise, and access to specialized tools and workflows. Your purpose is to assist users effectively while maintaining high standards of accuracy, ethics, and user experience.

Core Capabilities:
- Process and analyze: text, images, audio, and structured data
- Access enterprise knowledge bases and documentation
- Execute complex workflows and tool integrations
- Maintain contextual awareness across conversations
- Generate and edit various content formats

Interaction Guidelines:
1. Approach each task systematically:
   - Analyze requirements thoroughly
   - Break down complex tasks
   - Select appropriate tools/workflows
   - Execute with precision
   - Verify results

2. Knowledge Integration:
   - Leverage provided context first
   - Use tool-augmented search when needed
   - Synthesize information effectively
   - Cite sources when applicable
   - Acknowledge knowledge boundaries

3. Response Principles:
   - Prioritize accuracy over speed
   - Maintain appropriate detail level
   - Structure information clearly
   - Adapt tone to context
   - Ensure actionable outputs

4. Tool Utilization:
   - Select optimal tools for tasks
   - Execute workflows efficiently
   - Handle errors gracefully
   - Report results clearly
   - Suggest workflow improvements

5. Safety & Ethics:
   - Maintain user privacy
   - Follow security protocols
   - Uphold ethical guidelines
   - Flag sensitive requests
   - Ensure responsible AI use

When responding:
- If uncertain, acknowledge limitations
- If context is insufficient, request clarification
- If task exceeds capabilities, explain why
- If multiple approaches exist, outline options
- If errors occur, provide clear explanations

Remember: Your goal is to be maximally helpful while maintaining high standards of accuracy, ethics, and user experience across all interaction modalities.".

(** The [try] block of [ChatAgent.__init__]. *)
Definition init_llm (config : gmap string PyVal) : M GroqChatModel :=
  try_except
    (do _ <- (if negb (truthy (dict_get config "api_key"))
              then raise (ValueError "Groq API key is not configured")
              else ret tt);
     do m <- GroqChatModel_init
               (dict_get config "api_key")
               (dict_get_or config "model" (PyStr DEFAULT_MODEL))
               (dict_get_or config "temperature" (PyFloat DEFAULT_TEMPERATURE));
     do _ <- logging_info ("Successfully initialized Groq chat model with model: "
                           ++ py_str (dict_get config "model"));
     ret m)
    (fun e =>
       do _ <- logging_error ("Failed to initialize Groq: " ++ exn_str e);
       raise e).

(** [ChatAgent.__init__(config)] *)
Definition ChatAgent_init (config : gmap string PyVal) : M ChatAgent :=
  do m <- init_llm config;
  do dp <- call DocumentProcessor_new;
  ret (mkChatAgent m dp None
         (dict_get_or config "system_prompt" (PyStr DEFAULT_SYSTEM_PROMPT))).

(** [ChatAgent.initialize(memory_manager)] *)
Definition initialize (self : ChatAgent) (memory_manager : MemoryManager) : M ChatAgent :=
  do _ <- logging_info "Chat agent initialized with memory manager";
  ret (mkChatAgent (llm self) (doc_processor self) (Some memory_manager) (system_prompt self)).

(** [ChatAgent.cleanup()] *)
Definition cleanup (self : ChatAgent) : M ChatAgent :=
  do _ <- logging_info "Chat agent cleanup completed";
  ret (mkChatAgent (llm self) (doc_processor self) None (system_prompt self)).

(** [self.memory and hasattr(self.memory, 'get_relevant_context')], giving
    the method when the test passes. *)
Definition context_method (self : ChatAgent)
  : option (string -> ExtState -> Res PyVal * ExtState) :=
  match memory self with
  | None => None
  | Some mm => if mm_bool mm then get_relevant_context mm else None
  end.

(** Lines 190-194 of [process_message]: the relevant documents. *)
Definition retrieve_context (self : ChatAgent) (message : string) : M (list Document) :=
  let relevant_docs := [] in
  match context_method self with
  | Some get =>
      do context <- call (get message);
      if truthy context
      then call (process_text (doc_processor self) context)
      else ret relevant_docs
  | None => ret relevant_docs
  end.

(** Lines 196-207 of [process_message]: the messages for the model, as the
    list is once the constructors have accepted their contents. *)
Definition assemble (system_prompt : PyVal) (relevant_docs : list Document)
    (message : string) : list BaseMessage :=
  let messages := [SystemMessage system_prompt] in
  let messages :=
    match relevant_docs with
    | [] => messages
    | _ :: _ =>
        let context := String.concat NL (map page_content relevant_docs) in
        (messages ++ [SystemMessage (PyStr ("Context:" ++ NL ++ context))])%list
    end in
  (messages ++ [HumanMessage (PyStr message)])%list.

Definition FALLBACK_RESPONSE : string :=
  "I apologize, but I encountered an error processing your message. "
  ++ "This might be due to API limits or connectivity issues. "
  ++ "Please try again later or contact support if the issue persists.".

(** Lines 196-207 of [process_message] as they run: each message is built
    by its validating constructor, so a content the constructor refuses
    raises here. *)
Definition build_messages (system_prompt : PyVal) (relevant_docs : list Document)
    (message : string) : M (list BaseMessage) :=
  do system <- new_SystemMessage system_prompt;
  let messages := [system] in
  do messages <-
    match relevant_docs with
    | [] => ret messages
    | _ :: _ =>
        let context := String.concat NL (map page_content relevant_docs) in
        do block <- new_SystemMessage (PyStr ("Context:" ++ NL ++ context));
        ret (messages ++ [block])%list
    end;
  do user <- new_HumanMessage (PyStr message);
  ret (messages ++ [user])%list.

(** The [try] block of [process_message]. *)
Definition process_message_try (self : ChatAgent) (message : string) : M PipelineResult :=
  do relevant_docs <- retrieve_context self message;
  do messages <- build_messages (system_prompt self) relevant_docs message;
  do response <- _generate (llm self) messages None;
  do generation <- py_getitem (generations response) 0;
  ret (mkPipelineResult (content (cg_message generation)) relevant_docs).

(** [ChatAgent.process_message(message)] *)
Definition process_message (self : ChatAgent) (message : string) : M PipelineResult :=
  try_except
    (process_message_try self message)
    (fun e =>
       do _ <- logging_error ("Error processing message: " ++ exn_str e);
       ret (mkPipelineResult (PyStr FALLBACK_RESPONSE) [])).

End Agent.

(** ** What the specification says of the role mapping *)

(** The provider role of a message: [user], [assistant] or [system]; a
    message of any other role has none. *)
Definition provider_role (m : BaseMessage) : option string :=
  match m with
  | HumanMessage _ => Some "user"
  | AIMessage _ => Some "assistant"
  | SystemMessage _ => Some "system"
  | ChatMessage _ _ => None
  end.

Definition provider_pair (m : BaseMessage) : option ChatDict :=
  match provider_role m with
  | Some r => Some (mkChatDict r (content m))
  | None => None
  end.

(** Each message mapped to its pair, the role-less ones dropped, in order. *)
Fixpoint provider_pairs (messages : list BaseMessage) : list ChatDict :=
  match messages with
  | [] => []
  | m :: rest =>
      match provider_pair m with
      | Some d => d :: provider_pairs rest
      | None => provider_pairs rest
      end
  end.


(** ** Outcomes of the retrieval step and of a turn *)

Section Outcomes.
Context {X : Externals}.

(** The request [_generate] builds from its arguments. *)
Definition request_of (self : GroqChatModel) (messages : list BaseMessage)
    (stop : option (list string)) : Request :=
  mkRequest (model self) (chat_messages_of messages) (temperature self) stop.

(** The turn has no context, leaving the world as [w']: no memory manager
    is bound, or the bound one lacks [get_relevant_context], or the method
    returns nothing ([None] or the empty string). *)
Inductive NoContext (self : ChatAgent) (message : string) (w : World) : World -> Prop :=
  | unbound :
      memory self = None ->
      NoContext self message w w
  | no_capability mm :
      memory self = Some mm ->
      get_relevant_context mm = None ->
      NoContext self message w w
  | nothing_found get context x' :
      context_method self = Some get ->
      get message (ext w) = (Ok context, x') ->
      truthy context = false ->
      NoContext self message w (mkWorld (log w) (sent w) x').

(** A step of the turn raises [e], leaving the world as [w']. *)
Inductive TurnFails (self : ChatAgent) (message : string) (w : World)
  : Exn -> World -> Prop :=
  | retrieval_fails get e x' :
      context_method self = Some get ->
      get message (ext w) = (Raise e, x') ->
      TurnFails self message w e (mkWorld (log w) (sent w) x')
  | chunking_fails get context x1 e x2 :
      context_method self = Some get ->
      get message (ext w) = (Ok context, x1) ->
      truthy context = true ->
      process_text (doc_processor self) context x1 = (Raise e, x2) ->
      TurnFails self message w e (mkWorld (log w) (sent w) x2)
  | assembly_fails docs w1 e :
      retrieve_context self message w = (Ok docs, w1) ->
      message_content "SystemMessage" (system_prompt self) = Raise e ->
      TurnFails self message w e w1
  | model_call_fails docs w1 prompt e w2 :
      retrieve_context self message w = (Ok docs, w1) ->
      message_content "SystemMessage" (system_prompt self) = Ok prompt ->
      _generate (llm self) (assemble prompt docs message) None w1 = (Raise e, w2) ->
      TurnFails self message w e w2.

(** The fixed result of a failed turn. *)
Definition FALLBACK_RESULT : PipelineResult :=
  mkPipelineResult (PyStr FALLBACK_RESPONSE) [].

End Outcomes.

(** * The Streamlit shell of [frontend/streamlit_app.py]

    One run of the script: Streamlit runs [main] from the top on every
    interaction, with [st.session_state] kept between runs. What the script
    draws is recorded as a list of events, what it prints as a list of
    lines; the value the chat input and the clear button return in a run
    are the run's inputs. Text is held as its UTF-8 bytes. *)

Inductive UIEvent : Type :=
  | st_set_page_config (page_title page_icon layout : string)
  | st_title (body : string)
  | st_markdown (body : PyVal)
  | st_error (body : string)
  | st_chat_message (name : string)
  | st_spinner (text : string)
  | st_chat_input (placeholder : string)
  | st_sidebar_button (label : string)
  | st_sidebar.

(** How a run of the script ends: it reaches its last line, it leaves
    [main] through [return], or [st.rerun()] stops it. *)
Inductive RunEnd : Type := Completed | Returned | Rerun.

(** What the shell calls besides the agent. The configuration is a dict of
    sections, each a dict. *)
Class Frontend {X : Externals} : Type := {
  (** [load_config()] *)
  load_config : ExtState -> Res (gmap string (gmap string PyVal)) * ExtState;
  (** [MemoryManager(config)] *)
  MemoryManager_new : gmap string PyVal -> ExtState -> Res MemoryManager * ExtState;
  (** [colorama]'s escape sequences *)
  Fore_CYAN : string;
  Fore_GREEN : string;
  Style_RESET_ALL : string;
  (** [str] of the [AttributeError] that reading an absent key of
      [st.session_state] raises *)
  missing_key : string -> string
}.

Section Shell.
Context {X : Externals} {Y : Frontend}.

(** [st.session_state]: each of the two keys is absent or holds a value;
    [agent] may hold [None]. *)
Record SessionState : Type := mkSessionState {
  ss_messages : option (list ChatDict);
  ss_agent : option (option ChatAgent)
}.

Record Front : Type := mkFront {
  core : World;
  stdout : list string;
  ui : list UIEvent;
  session : SessionState
}.

Definition UI (A : Type) : Type := Front -> Res A * Front.

Definition ui_ret {A} (a : A) : UI A := fun f => (Ok a, f).

Definition ui_raise {A} (e : Exn) : UI A := fun f => (Raise e, f).

Definition ui_bind {A B} (m : UI A) (k : A -> UI B) : UI B :=
  fun f =>
    match m f with
    | (Ok a, f') => k a f'
    | (Raise e, f') => (Raise e, f')
    end.

Definition ui_try {A} (m : UI A) (h : Exn -> UI A) : UI A :=
  fun f =>
    match m f with
    | (Ok a, f') => (Ok a, f')
    | (Raise e, f') => h e f'
    end.

(** A method of the core, run on the shell's world. *)
Definition lift {A} (m : M A) : UI A :=
  fun f => let '(r, w) := m (core f) in (r, mkFront w (stdout f) (ui f) (session f)).

(** [print(line)] *)
Definition print (line : string) : UI unit :=
  fun f => (Ok tt, mkFront (core f) (stdout f ++ [line]) (ui f) (session f)).

(** A call that draws. *)
Definition show (ev : UIEvent) : UI unit :=
  fun f => (Ok tt, mkFront (core f) (stdout f) (ui f ++ [ev]) (session f)).

Definition AttributeError (msg : string) : Exn := mkExn "AttributeError" msg.

(** [st.session_state.messages] *)
Definition read_messages : UI (list ChatDict) :=
  fun f =>
    match ss_messages (session f) with
    | Some l => (Ok l, f)
    | None => (Raise (AttributeError (missing_key "messages")), f)
    end.

(** [st.session_state.agent] *)
Definition read_agent : UI (option ChatAgent) :=
  fun f =>
    match ss_agent (session f) with
    | Some a => (Ok a, f)
    | None => (Raise (AttributeError (missing_key "agent")), f)
    end.

(** [st.session_state.messages = l] *)
Definition write_messages (l : list ChatDict) : UI unit :=
  fun f => (Ok tt, mkFront (core f) (stdout f) (ui f)
                     (mkSessionState (Some l) (ss_agent (session f)))).

(** [st.session_state.agent = a] *)
Definition write_agent (a : option ChatAgent) : UI unit :=
  fun f => (Ok tt, mkFront (core f) (stdout f) (ui f)
                     (mkSessionState (ss_messages (session f)) (Some a))).

End Shell.

Notation "'run' x <- m ; k" := (ui_bind m (fun x => k))
  (at level 10, x name, m at level 100, k at level 200).

Section Script.
Context {X : Externals} {Y : Frontend}.

(** [config.get(name, {})] *)
Definition section_of (config : gmap string (gmap string PyVal)) (name : string)
  : gmap string PyVal :=
  default ∅ (config !! name).

(** [initialize_chat_system()] *)
Definition initialize_chat_system : UI (option ChatAgent) :=
  ui_try
    (run _ <- print (NL ++ Fore_CYAN ++ "🚀 Initializing AI Chat System..." ++ Style_RESET_ALL);
     run config <- lift (call load_config);
     run _ <- print (Fore_CYAN ++ "📚 Initializing Memory System..." ++ Style_RESET_ALL);
     run memory_manager <- lift (call (MemoryManager_new (section_of config "memory")));
     run _ <- print (Fore_CYAN ++ "🤖 Initializing AI Agent..." ++ Style_RESET_ALL);
     run agent <- lift (ChatAgent_init (section_of config "agent"));
     run agent <- lift (initialize agent memory_manager);
     run _ <- print (Fore_GREEN ++ "✨ Chat system initialized successfully!"
                     ++ Style_RESET_ALL);
     ui_ret (Some agent))
    (fun e =>
       run _ <- show (st_error ("Error initializing chat system: " ++ exn_str e));
       ui_ret None).

(** [st.session_state.messages.append(entry)] *)
Definition append_message (entry : ChatDict) : UI unit :=
  run l <- read_messages;
  write_messages (l ++ [entry]).

(** [agent.process_message(prompt)] on what the session holds. *)
Definition agent_process_message (a : option ChatAgent) (prompt : string)
  : UI PipelineResult :=
  match a with
  | Some self => lift (process_message self prompt)
  | None => ui_raise (AttributeError "'NoneType' object has no attribute 'process_message'")
  end.

(** [response.get("response", default)]: the result always has the key. *)
Definition get_response (r : PipelineResult) (dflt : PyVal) : PyVal := response r.

(** The body of [if prompt := st.chat_input(...)]. *)
Definition chat_turn (prompt : string) : UI unit :=
  run _ <- append_message (mkChatDict "user" (PyStr prompt));
  run _ <- show (st_chat_message "user");
  run _ <- show (st_markdown (PyStr prompt));
  run _ <- show (st_chat_message "assistant");
  run _ <- show (st_spinner "🤔 AI is thinking...");
  ui_try
    (run a <- read_agent;
     run r <- agent_process_message a prompt;
     let ai_response :=
       get_response r
         (PyStr "I apologize, but I encountered an error processing your message.") in
     run _ <- show (st_markdown ai_response);
     append_message (mkChatDict "assistant" ai_response))
    (fun e =>
       let error_message := "Error generating response: " ++ exn_str e in
       run _ <- show (st_error error_message);
       append_message (mkChatDict "assistant" (PyStr ("❌ " ++ error_message)))).

(** [for message in st.session_state.messages: ...] *)
Fixpoint display (l : list ChatDict) : UI unit :=
  match l with
  | [] => ui_ret tt
  | m :: rest =>
      run _ <- show (st_chat_message (cd_role m));
      run _ <- show (st_markdown (cd_content m));
      display rest
  end.

Definition TIPS : string :=
  "
        - Type 'help' for available commands
        - Use clear chat button to start fresh
        - Questions are answered using context and general knowledge
        ".

(** [main] from "Display chat messages" on. *)
Definition main_page (prompt : option string) (clear_clicked : bool) : UI RunEnd :=
  run l <- read_messages;
  run _ <- display l;
  run _ <- show (st_chat_input "Type your message here...");
  run _ <- match prompt with
           | Some text => if truthy (PyStr text) then chat_turn text else ui_ret tt
           | None => ui_ret tt
           end;
  run _ <- show (st_sidebar_button "🗑️ Clear Chat");
  if clear_clicked
  then
    run _ <- write_messages [];
    ui_ret Rerun
  else
    run _ <- show st_sidebar;
    run _ <- show (st_markdown (PyStr "### 💡 Tips"));
    run _ <- show (st_markdown (PyStr TIPS));
    ui_ret Completed.

(** [main()], in a run where the chat input returns [prompt] and the clear
    button [clear_clicked]. *)
Definition main (prompt : option string) (clear_clicked : bool) : UI RunEnd :=
  run _ <- show (st_set_page_config "AI Chat Interface" "🤖" "wide");
  run _ <- show (st_title "🤖 AI Chat Interface");
  run _ <- show (st_markdown (PyStr "### 🧠 Powered by Groq LLM & LangChain"));
  run _ <- (fun f =>
              match ss_messages (session f) with
              | None => write_messages [] f
              | Some _ => (Ok tt, f)
              end);
  run has_agent <- (fun f => (Ok (ss_agent (session f)), f));
  match has_agent with
  | None =>
      run a <- initialize_chat_system;
      run _ <- write_agent a;
      match a with
      | None =>
          run _ <- show (st_error
            "Failed to initialize chat system. Please check your configuration and try again.");
          ui_ret Returned
      | Some _ => main_page prompt clear_clicked
      end
  | Some _ => main_page prompt clear_clicked
  end.

End Script.

(** ** Scripted collaborators

    Closed environments for running the pipeline: the collaborators' state
    counts the calls made so far, the provider and the chunker follow a
    script. *)

(** The validation of the scripts: a message holds a string or is refused. *)
Definition strings_only (cls : string) (v : PyVal) : Res PyVal :=
  match v with
  | PyStr s => Ok (PyStr s)
  | _ => Raise (mkExn "ValidationError" ("1 validation error for " ++ cls))
  end.

Definition strings_only_None (cls : string) (c : PyVal)
  : strings_only cls PyNone <> Ok c :=
  fun H => eq_ind (strings_only cls PyNone)
             (fun r => match r with Ok _ => False | Raise _ => True end) I _ H.

Definition scripted (provider : nat -> Request -> Res Completion)
    (chunker : PyVal -> Res (list Document)) : Externals :=
  {| ExtState := nat;
     GroqClient := PyVal;
     DocumentProcessor := unit;
     groq_Groq := fun key n => (Ok key, S n);
     completions_create := fun _ q n => (provider n q, S n);
     DocumentProcessor_new := fun n => (Ok tt, S n);
     process_text := fun _ ctx n => (chunker ctx, S n);
     float_repr := fun _ => "<float>";
     message_content := strings_only;
     message_content_str := fun _ _ => eq_refl;
     message_content_None := strings_only_None |}.

Definition answers (text : string) : nat -> Request -> Res Completion :=
  fun _ _ => Ok (mkCompletion [mkChoice (PyStr text)]).

Definition ConnectionError : Exn := mkExn "APIConnectionError" "Connection error.".

(** Fails until [n] calls have been made to the collaborators, then answers. *)
Definition flaky (n : nat) (text : string) : nat -> Request -> Res Completion :=
  fun calls _ => if Nat.ltb calls n then Raise ConnectionError
                 else Ok (mkCompletion [mkChoice (PyStr text)]).

Definition one_chunk : PyVal -> Res (list Document) :=
  fun ctx => match ctx with
             | PyStr s => Ok [mkDocument s]
             | _ => Raise (mkExn "TypeError" "expected str")
             end.

Definition no_chunks : PyVal -> Res (list Document) := fun _ => Ok [].

Definition broken_chunker : PyVal -> Res (list Document) :=
  fun _ => Raise (mkExn "RuntimeError" "splitter failed").

Definition env_ok : Externals := scripted (answers "Hi there") one_chunk.
Definition env_flaky : Externals := scripted (flaky 1 "Hi there") one_chunk.
Definition env_no_chunks : Externals := scripted (answers "Hi there") no_chunks.
Definition env_broken_chunker : Externals := scripted (answers "Hi there") broken_chunker.

Definition store_returning {X : Externals} (v : PyVal) : MemoryManager :=
  mkMemoryManager true (Some (fun _ x => (Ok v, x))).

Definition store_raising {X : Externals} (e : Exn) : MemoryManager :=
  mkMemoryManager true (Some (fun _ x => (Raise e, x))).

Definition store_without_method {X : Externals} : MemoryManager :=
  mkMemoryManager true None.

Definition world0 {X : Externals} (x : ExtState) : World := mkWorld [] [] x.

Definition config_k : gmap string PyVal := {[ "api_key" := PyStr "k" ]}.

Definition config_hot : gmap string PyVal :=
  <[ "temperature" := PyFloat 5%float ]> config_k.

(** The agent [ChatAgent({"api_key": "k"})] builds in a scripted
    environment, with [memory] bound as given. *)
Definition agent_k {X : Externals} (c : GroqClient) (dp : DocumentProcessor)
    (mem : option MemoryManager) : ChatAgent :=
  mkChatAgent (mkGroqChatModel c (PyStr DEFAULT_MODEL) (PyFloat DEFAULT_TEMPERATURE))
    dp mem (PyStr "Be brief.").

(** The request an [agent_k] sends for the given provider pairs. *)
Definition request_k (pairs : list ChatDict) : Request :=
  mkRequest (PyStr DEFAULT_MODEL) pairs (PyFloat DEFAULT_TEMPERATURE) None.

Definition system_k : ChatDict := mkChatDict "system" (PyStr "Be brief.").

Definition user_says (text : string) : ChatDict := mkChatDict "user" (PyStr text).

(** More scripts: a provider whose answer has no choice or several, and
    constructors that can fail. *)

Definition answers_nothing : nat -> Request -> Res Completion :=
  fun _ _ => Ok (mkCompletion []).

Definition answers_all (texts : list string) : nat -> Request -> Res Completion :=
  fun _ _ => Ok (mkCompletion (map (fun text => mkChoice (PyStr text)) texts)).

Definition scripted_build (client_built : PyVal -> Res PyVal) (processor_built : Res unit)
    (provider : nat -> Request -> Res Completion)
    (chunker : PyVal -> Res (list Document)) : Externals :=
  {| ExtState := nat;
     GroqClient := PyVal;
     DocumentProcessor := unit;
     groq_Groq := fun key n => (client_built key, S n);
     completions_create := fun _ q n => (provider n q, S n);
     DocumentProcessor_new := fun n => (processor_built, S n);
     process_text := fun _ ctx n => (chunker ctx, S n);
     float_repr := fun _ => "<float>";
     message_content := strings_only;
     message_content_str := fun _ _ => eq_refl;
     message_content_None := strings_only_None |}.

(** An answer whose one choice has no text. *)
Definition answers_without_text : nat -> Request -> Res Completion :=
  fun _ _ => Ok (mkCompletion [mkChoice PyNone]).

Definition env_silent : Externals := scripted answers_nothing one_chunk.
Definition env_wordless : Externals := scripted answers_without_text one_chunk.
Definition env_two : Externals := scripted (answers_all ["Hi there"; "Hello"]) one_chunk.
Definition env_no_client : Externals :=
  scripted_build (fun _ => Raise ConnectionError) (Ok tt) (answers "Hi there") one_chunk.
Definition env_no_processor : Externals :=
  scripted_build (fun key => Ok key) (Raise (mkExn "ImportError" "No module named nltk"))
    (answers "Hi there") one_chunk.

(** The escape character. *)
Definition ESC : string := String (Ascii.ascii_of_nat 27) EmptyString.

(** A shell whose configuration loader and memory manager constructor
    follow a script and leave the collaborators' state alone. *)
Definition shell {X : Externals} (loaded : Res (gmap string (gmap string PyVal)))
    (manager : Res MemoryManager) : Frontend :=
  {| load_config := fun x => (loaded, x);
     MemoryManager_new := fun _ x => (manager, x);
     Fore_CYAN := ESC ++ "[36m";
     Fore_GREEN := ESC ++ "[32m";
     Style_RESET_ALL := ESC ++ "[0m";
     missing_key := fun k => "st.session_state has no attribute " ++ k |}.

Definition config_file_k : gmap string (gmap string PyVal) := {[ "agent" := config_k ]}.

Definition shell_ok {X : Externals} : Frontend :=
  shell (Ok config_file_k) (Ok (store_returning (PyStr "Paris is the capital of France"))).

(** A configuration file without an [agent] section. *)
Definition shell_no_key {X : Externals} : Frontend :=
  shell (Ok ∅) (Ok (store_returning (PyStr "Paris is the capital of France"))).

Definition front0 {X : Externals} (x : ExtState) (ss : SessionState) : Front :=
  mkFront (world0 x) [] [] ss.

Definition no_session {X : Externals} : SessionState := mkSessionState None None.

(** A configuration whose [model] entry is [None]. *)
Definition config_null_model : gmap string PyVal :=
  <[ "model" := PyNone ]> config_k.

(** A session after some runs: a transcript and the [agent] key. *)
Definition session_of {X : Externals} (l : list ChatDict) (a : option ChatAgent)
  : SessionState :=
  mkSessionState (Some l) (Some a).

Definition greeting : list ChatDict :=
  [mkChatDict "user" (PyStr "Hello"); mkChatDict "assistant" (PyStr "Hi there")].

(** The agent [ChatAgent({"api_key": "k"})] builds in [env_ok], with
    [memory] as given. *)
Definition agent_built (mem : option (MemoryManager (X:=env_ok))) : ChatAgent (X:=env_ok) :=
  mkChatAgent (X:=env_ok)
    (mkGroqChatModel (X:=env_ok) (PyStr "k") (PyStr DEFAULT_MODEL)
       (PyFloat DEFAULT_TEMPERATURE))
    tt mem (PyStr DEFAULT_SYSTEM_PROMPT).

Definition paris_store : MemoryManager (X:=env_ok) :=
  store_returning (X:=env_ok) (PyStr "Paris is the capital of France").

(** ** Words for the runs of the script *)

Section Runs.
Context {X : Externals} {Y : Frontend}.

(** What every run draws first. *)
Definition HEADER : list UIEvent :=
  [st_set_page_config "AI Chat Interface" "🤖" "wide";
   st_title "🤖 AI Chat Interface";
   st_markdown (PyStr "### 🧠 Powered by Groq LLM & LangChain")].

(** The transcript a session holds; none yet counts as empty. *)
Definition transcript (ss : SessionState) : list ChatDict :=
  default [] (ss_messages ss).

(** What the display loop draws for a transcript. *)
Definition drawn_transcript (l : list ChatDict) : list UIEvent :=
  flat_map (fun m => [st_chat_message (cd_role m); st_markdown (cd_content m)]) l.

(** The prompt the [if prompt := ...] test lets through. *)
Definition submitted (prompt : option string) : option string :=
  match prompt with
  | Some text => if truthy (PyStr text) then Some text else None
  | None => None
  end.

(** The shell once the header is drawn and the transcript exists, the
    session's [agent] key being [a]. *)
Definition opened (f : Front) (a : option (option ChatAgent)) : Front :=
  mkFront (core f) (stdout f) (ui f ++ HEADER)
    (mkSessionState (Some (transcript (session f))) a).

Definition is_error (ev : UIEvent) : bool :=
  match ev with st_error _ => true | _ => false end.

End Runs.

(** * Properties *)

Section Properties.
Context {X : Externals}.

Implicit Types (self : ChatAgent) (message : string) (w : World).

(** ** The adapter *)

Lemma chat_messages_from acc (messages : list BaseMessage) :
  fold_left append_chat_message messages acc = (acc ++ provider_pairs messages)%list.
Proof.
  revert acc. induction messages as [|m rest IH]; intros acc; simpl.
  - by rewrite app_nil_r.
  - rewrite IH. destruct m; simpl; by rewrite <- ?app_assoc.
Qed.

Lemma chat_messages_of_pairs (messages : list BaseMessage) :
  chat_messages_of messages = provider_pairs messages.
Proof. unfold chat_messages_of. by rewrite chat_messages_from. Qed.

Lemma provider_pairs_app (l1 l2 : list BaseMessage) :
  provider_pairs (l1 ++ l2) = (provider_pairs l1 ++ provider_pairs l2)%list.
Proof.
  induction l1 as [|m l1 IH]; simpl; [done|].
  destruct (provider_pair m); simpl; by rewrite IH.
Qed.

(** What [_generate] does, by the outcome of the provider call. *)
Lemma generate_eq (g : GroqChatModel) messages stop w :
  _generate g messages stop w =
  let q := request_of g messages stop in
  match completions_create (client g) q (ext w) with
  | (Ok completion, x) =>
      match choices completion with
      | top :: _ =>
          match message_content "AIMessage" (choice_content top) with
          | Ok c =>
              (Ok (mkChatResult [mkChatGeneration (AIMessage c)]),
               mkWorld (log w) (sent w ++ [q]) x)
          | Raise e =>
              (Raise e,
               mkWorld (log w ++ [(ERROR, "Error generating response: " ++ exn_str e)])
                       (sent w ++ [q]) x)
          end
      | [] =>
          (Raise (IndexError "list index out of range"),
           mkWorld (log w ++ [(ERROR, "Error generating response: list index out of range")])
                   (sent w ++ [q]) x)
      end
  | (Raise e, x) =>
      (Raise e,
       mkWorld (log w ++ [(ERROR, "Error generating response: " ++ exn_str e)])
               (sent w ++ [q]) x)
  end.
Proof.
  unfold _generate, try_except, bind, create, request_of; simpl.
  destruct (completions_create _ _ _) as [[completion|e] x]; simpl; [|done].
  destruct (choices completion) as [|top rest]; simpl; [done|].
  unfold new_AIMessage, construct.
  by destruct (message_content "AIMessage" (choice_content top)).
Qed.

Lemma generate_ok (g : GroqChatModel) messages stop w r w' :
  _generate g messages stop w = (Ok r, w') ->
  exists c, r = mkChatResult [mkChatGeneration (AIMessage c)].
Proof.
  rewrite generate_eq; simpl.
  destruct (completions_create _ _ _) as [[completion|e] x]; [|done].
  destruct (choices completion) as [|top rest]; [done|].
  destruct (message_content _ _) as [c|e]; [|done].
  intros [= <- <-]. eauto.
Qed.

Lemma generate_sent (g : GroqChatModel) messages stop w :
  sent (snd (_generate g messages stop w)) = (sent w ++ [request_of g messages stop])%list.
Proof.
  rewrite generate_eq; simpl.
  destruct (completions_create _ _ _) as [[completion|e] x]; [|done].
  destruct (choices completion) as [|top rest]; [done|].
  by destruct (message_content _ _).
Qed.

(** ** The orchestrator *)

(** The retrieval step, by what the memory manager and the chunker do. *)
Lemma retrieve_context_eq self message w :
  retrieve_context self message w =
  match context_method self with
  | None => (Ok [], w)
  | Some get =>
      match get message (ext w) with
      | (Raise e, x) => (Raise e, mkWorld (log w) (sent w) x)
      | (Ok context, x) =>
          if truthy context
          then (fst (process_text (doc_processor self) context x),
                mkWorld (log w) (sent w) (snd (process_text (doc_processor self) context x)))
          else (Ok [], mkWorld (log w) (sent w) x)
      end
  end.
Proof.
  unfold retrieve_context. destruct (context_method self) as [get|]; [|done].
  unfold bind, call, ret.
  destruct (get message (ext w)) as [[context|e] x]; simpl; [|done].
  destruct (truthy context); [|done]. simpl.
  by destruct (process_text _ _ _).
Qed.

(** The retrieval step writes no log record and sends no request. *)
Lemma retrieve_context_quiet self message w r w' :
  retrieve_context self message w = (r, w') -> log w' = log w /\ sent w' = sent w.
Proof.
  rewrite retrieve_context_eq.
  destruct (context_method self) as [get|]; [|by intros [= <- <-]].
  destruct (get message (ext w)) as [[context|e] x]; [|by intros [= <- <-]].
  destruct (truthy context); by intros [= <- <-].
Qed.

(** The messages are built unless the system prompt is refused: the two
    other contents are strings. *)
Lemma build_messages_eq (sp : PyVal) (docs : list Document) message w :
  build_messages sp docs message w =
  match message_content "SystemMessage" sp with
  | Ok prompt => (Ok (assemble prompt docs message), w)
  | Raise e => (Raise e, w)
  end.
Proof.
  unfold build_messages, new_SystemMessage, new_HumanMessage, construct, assemble.
  unfold bind at 1.
  destruct (message_content "SystemMessage" sp) as [prompt|e]; [|done].
  unfold ret at 1. destruct docs as [|d docs].
  - unfold bind, ret. by rewrite message_content_str.
  - unfold bind, ret. by rewrite !message_content_str.
Qed.

(** A whole turn, by the outcome of its steps. *)
Lemma process_message_eq self message w :
  process_message self message w =
  match retrieve_context self message w with
  | (Raise e, w1) =>
      (Ok FALLBACK_RESULT, emit ERROR ("Error processing message: " ++ exn_str e) w1)
  | (Ok docs, w1) =>
      match message_content "SystemMessage" (system_prompt self) with
      | Raise e =>
          (Ok FALLBACK_RESULT, emit ERROR ("Error processing message: " ++ exn_str e) w1)
      | Ok prompt =>
          match _generate (llm self) (assemble prompt docs message) None w1 with
          | (Raise e, w2) =>
              (Ok FALLBACK_RESULT,
               emit ERROR ("Error processing message: " ++ exn_str e) w2)
          | (Ok r, w2) =>
              match generations r with
              | g :: _ => (Ok (mkPipelineResult (content (cg_message g)) docs), w2)
              | [] =>
                  (Ok FALLBACK_RESULT,
                   emit ERROR "Error processing message: list index out of range" w2)
              end
          end
      end
  end.
Proof.
  unfold process_message, process_message_try, try_except. unfold bind at 1.
  destruct (retrieve_context self message w) as [[docs|e] w1]; [|done].
  unfold bind at 1. rewrite build_messages_eq.
  destruct (message_content _ _) as [prompt|e]; [|done].
  unfold bind.
  destruct (_generate _ _ _ w1) as [[r|e] w2]; [|done].
  by destruct (generations r).
Qed.

(** A turn whose retrieval step succeeded and whose system prompt is
    accepted, by the provider's answer. *)
Lemma process_message_with_docs self message w docs w1 prompt :
  retrieve_context self message w = (Ok docs, w1) ->
  message_content "SystemMessage" (system_prompt self) = Ok prompt ->
  process_message self message w =
  let q := request_of (llm self) (assemble prompt docs message) None in
  let failed (e : Exn) (x : ExtState) :=
    (Ok FALLBACK_RESULT,
     mkWorld (log w1 ++ [(ERROR, "Error generating response: " ++ exn_str e);
                         (ERROR, "Error processing message: " ++ exn_str e)])
             (sent w1 ++ [q]) x) in
  match completions_create (client (llm self)) q (ext w1) with
  | (Ok completion, x) =>
      match choices completion with
      | top :: _ =>
          match message_content "AIMessage" (choice_content top) with
          | Ok answer =>
              (Ok (mkPipelineResult answer docs), mkWorld (log w1) (sent w1 ++ [q]) x)
          | Raise e => failed e x
          end
      | [] => failed (IndexError "list index out of range") x
      end
  | (Raise e, x) => failed e x
  end.
Proof.
  intros Hdocs Hprompt. rewrite process_message_eq, Hdocs, Hprompt, generate_eq. simpl.
  destruct (completions_create _ _ _) as [[completion|e] x]; simpl.
  - destruct (choices completion) as [|top rest]; simpl.
    + unfold emit; simpl. by rewrite <- app_assoc.
    + destruct (message_content "AIMessage" (choice_content top)) as [answer|e];
        simpl; [done|].
      unfold emit; simpl. by rewrite <- app_assoc.
  - unfold emit; simpl. by rewrite <- app_assoc.
Qed.

(** The failures of a turn are exactly the failures of its steps. *)
Lemma turn_fails_iff self message w e w' :
  process_message_try self message w = (Raise e, w') <-> TurnFails self message w e w'.
Proof.
  unfold process_message_try. unfold bind at 1. split.
  - destruct (retrieve_context self message w) as [[docs|e1] w1] eqn:Hr.
    + unfold bind at 1. rewrite build_messages_eq.
      destruct (message_content _ _) as [prompt|e2] eqn:Hp.
      * unfold bind.
        destruct (_generate _ _ _ w1) as [[r|e2] w2] eqn:Hg.
        -- destruct (generate_ok _ _ _ _ _ _ Hg) as [c ->]. done.
        -- intros [= <- <-]. by eapply model_call_fails.
      * intros [= <- <-]. by eapply assembly_fails.
    + intros [= <- <-]. rewrite retrieve_context_eq in Hr.
      destruct (context_method self) as [get|] eqn:Hm; [|done].
      destruct (get message (ext w)) as [[context|e2] x] eqn:Hget.
      * destruct (truthy context) eqn:Ht; [|done].
        destruct (process_text _ _ _) as [r x2] eqn:Hp. simpl in Hr.
        injection Hr as -> <-. by eapply chunking_fails.
      * injection Hr as <- <-. by eapply retrieval_fails.
  - intros [get e1 x' Hm Hget | get context x1 e1 x2 Hm Hget Ht Hp
           | docs w1 e1 Hr Hp | docs w1 prompt e1 w2 Hr Hp Hg].
    + rewrite retrieve_context_eq, Hm, Hget. done.
    + rewrite retrieve_context_eq, Hm, Hget, Ht, Hp. done.
    + rewrite Hr. unfold bind at 1. by rewrite build_messages_eq, Hp.
    + rewrite Hr. unfold bind at 1. rewrite build_messages_eq, Hp.
      unfold bind. by rewrite Hg.
Qed.

(** A turn whose retrieval step found no document returns a result
    without source documents. *)
Lemma no_docs_result self message w w1 :
  retrieve_context self message w = (Ok [], w1) ->
  exists r w2, process_message self message w = (Ok r, w2) /\ source_documents r = [].
Proof.
  intros Hr. rewrite process_message_eq, Hr.
  destruct (message_content "SystemMessage" (system_prompt self)) as [prompt|e];
    [|by eauto].
  destruct (_generate _ _ _ w1) as [[r|e] w2]; [|by eauto].
  destruct (generations r); eauto.
Qed.

(** Such a turn is the turn of the agent without memory manager, taken
    from the world the retrieval step left. *)
Lemma no_docs_as_unbound self message w w1 :
  retrieve_context self message w = (Ok [], w1) ->
  process_message self message w =
  process_message (mkChatAgent (llm self) (doc_processor self) None (system_prompt self))
    message w1.
Proof. intros Hr. by rewrite !process_message_eq, Hr. Qed.

(** A turn whose retrieval step found no document and whose system prompt
    is accepted. *)
Lemma turn_without_docs self message w w1 prompt :
  retrieve_context self message w = (Ok [], w1) ->
  message_content "SystemMessage" (system_prompt self) = Ok prompt ->
  let q := mkRequest (model (llm self))
             [mkChatDict "system" prompt; mkChatDict "user" (PyStr message)]
             (temperature (llm self)) None in
  sent (snd (process_message self message w)) = (sent w ++ [q])%list
  /\ (forall completion x2 top rest text,
        completions_create (client (llm self)) q (ext w1) = (Ok completion, x2) ->
        choices completion = top :: rest ->
        choice_content top = PyStr text ->
        process_message self message w =
          (Ok (mkPipelineResult (PyStr text) []),
           mkWorld (log w) (sent w ++ [q]) x2)).
Proof.
  intros Hr Hprompt q. destruct (retrieve_context_quiet _ _ _ _ _ Hr) as [Hlog Hsent].
  pose proof (process_message_with_docs _ _ _ _ _ _ Hr Hprompt) as Hpm. simpl in Hpm.
  change (request_of (llm self) (assemble prompt [] message) None) with q in Hpm.
  rewrite Hlog, Hsent in Hpm. split.
  - rewrite Hpm. destruct (completions_create _ _ _) as [[completion|e] x]; [|done].
    destruct (choices completion) as [|top rest]; [done|].
    by destruct (message_content "AIMessage" (choice_content top)).
  - intros completion x2 top rest text Hc Htop Htext.
    by rewrite Hpm, Hc, Htop, Htext, message_content_str.
Qed.



(** A freshly built agent, or one cleaned up, has no memory manager. *)
Lemma init_unbound (config : gmap string PyVal) w agent w' :
  ChatAgent_init config w = (Ok agent, w') -> memory agent = None.
Proof.
  unfold ChatAgent_init, bind, call.
  destruct (init_llm config w) as [[m|e] w1]; [|done].
  destruct (DocumentProcessor_new _) as [[dp|e] x]; [|done].
  by intros [= <- <-].
Qed.

Lemma cleanup_unbinds self w :
  exists self', fst (cleanup self w) = Ok self' /\ memory self' = None
                /\ fst (cleanup self' (snd (cleanup self w))) = Ok self'.
Proof. by eexists. Qed.

Lemma initialize_binds self mm w :
  exists self', fst (initialize self mm w) = Ok self' /\ memory self' = Some mm.
Proof. by eexists. Qed.

(** ** The claims *)

(** C1. [process_message] never raises: it always returns a result, and
    whenever a step of the turn fails (the memory manager's query, the
    chunking, the prompt assembly, where the message constructor may refuse
    the system prompt, or the model call) the result is the fixed fallback,
    whose response is the apology that mentions API limits or connectivity
    issues and whose source documents are empty, and the cause is logged as
    an error. *)
Theorem process_message_contains_failures self message w :
  (exists r w', process_message self message w = (Ok r, w'))
  /\ (forall e w',
        TurnFails self message w e w' ->
        process_message self message w =
          (Ok FALLBACK_RESULT,
           mkWorld (log w' ++ [(ERROR, "Error processing message: " ++ exn_str e)])
                   (sent w') (ext w')))
  /\ source_documents FALLBACK_RESULT = []
  /\ (exists before after,
        response FALLBACK_RESULT
        = PyStr (before ++ "API limits or connectivity issues" ++ after)).
Proof.
  repeat split.
  - unfold process_message, try_except.
    destruct (process_message_try self message w) as [[r|e] w']; simpl; eauto.
  - intros e w' Hfail. apply turn_fails_iff in Hfail.
    unfold process_message, try_except. by rewrite Hfail.
  - exists "I apologize, but I encountered an error processing your message. This might be due to ",
           ". Please try again later or contact support if the issue persists.".
    reflexivity.
Qed.


(** C3. With a non-empty (truthy) [api_key], construction succeeds as soon
    as the Groq client and the document processor can be built; with
    [api_key] missing or empty, it raises [ValueError("Groq API key is not
    configured")] to the caller of the constructor, after logging it, and
    builds nothing. *)
Theorem construction_needs_api_key (config : gmap string PyVal) w :
  (truthy (dict_get config "api_key") = true ->
   forall c x1 dp x2,
     groq_Groq (dict_get config "api_key") (ext w) = (Ok c, x1) ->
     DocumentProcessor_new x1 = (Ok dp, x2) ->
     ChatAgent_init config w =
       (Ok (mkChatAgent
              (mkGroqChatModel c
                 (dict_get_or config "model" (PyStr DEFAULT_MODEL))
                 (dict_get_or config "temperature" (PyFloat DEFAULT_TEMPERATURE)))
              dp None
              (dict_get_or config "system_prompt" (PyStr DEFAULT_SYSTEM_PROMPT))),
        mkWorld
          (log w ++ [(INFO, "Successfully initialized Groq chat model with model: "
                            ++ py_str (dict_get config "model"))])
          (sent w) x2))
  /\ (truthy (dict_get config "api_key") = false ->
      ChatAgent_init config w =
        (Raise (ValueError "Groq API key is not configured"),
         mkWorld
           (log w ++ [(ERROR, "Failed to initialize Groq: Groq API key is not configured")])
           (sent w) (ext w)))
  /\ (config !! "api_key" = None -> truthy (dict_get config "api_key") = false)
  /\ (forall s, config !! "api_key" = Some (PyStr s) ->
                truthy (dict_get config "api_key") = negb (String.eqb s "")).
Proof.
  repeat split.
  - intros Hkey c x1 dp x2 Hgroq Hdp.
    unfold ChatAgent_init, init_llm, GroqChatModel_init, try_except, bind, call.
    rewrite Hkey. simpl. rewrite Hgroq. simpl. by rewrite Hdp.
  - intros Hkey.
    unfold ChatAgent_init, init_llm, try_except, bind. by rewrite Hkey.
  - unfold dict_get. by intros ->.
  - unfold dict_get. by intros s ->.
Qed.

(** C4, as the code has it. When the memory manager's query or the chunker
    raises, the turn is not continued with an empty context: the model is
    not called, the cause is logged, and the fixed fallback is returned. *)
Theorem retrieval_failure_gives_fallback self message w get :
  context_method self = Some get ->
  (forall e x',
     get message (ext w) = (Raise e, x') ->
     process_message self message w =
       (Ok FALLBACK_RESULT,
        mkWorld (log w ++ [(ERROR, "Error processing message: " ++ exn_str e)]) (sent w) x'))
  /\ (forall context x1 e x2,
        get message (ext w) = (Ok context, x1) ->
        truthy context = true ->
        process_text (doc_processor self) context x1 = (Raise e, x2) ->
        process_message self message w =
          (Ok FALLBACK_RESULT,
           mkWorld (log w ++ [(ERROR, "Error processing message: " ++ exn_str e)])
                   (sent w) x2)).
Proof.
  intros Hm. split.
  - intros e x' Hget.
    by rewrite process_message_eq, retrieve_context_eq, Hm, Hget.
  - intros context x1 e x2 Hget Ht Hp.
    by rewrite process_message_eq, retrieve_context_eq, Hm, Hget, Ht, Hp.
Qed.

(** C5. When every step of the turn succeeds (the retrieval step yields
    the documents [docs], the system prompt is accepted as a message
    content, the provider answers the request built from them and its
    first choice has a text) the result carries that text as its response
    and exactly [docs], in order, as its source documents; nothing is
    logged. When the memory manager returns a context and the chunker
    succeeds, [docs] is the chunker's output as it is. *)
Theorem successful_turn self message w :
  (forall docs w1 prompt completion x2 top rest text,
     retrieve_context self message w = (Ok docs, w1) ->
     message_content "SystemMessage" (system_prompt self) = Ok prompt ->
     completions_create (client (llm self))
       (request_of (llm self) (assemble prompt docs message) None) (ext w1)
       = (Ok completion, x2) ->
     choices completion = top :: rest ->
     choice_content top = PyStr text ->
     process_message self message w =
       (Ok (mkPipelineResult (PyStr text) docs),
        mkWorld (log w)
          (sent w ++ [request_of (llm self) (assemble prompt docs message) None])
          x2))
  /\ (forall get context x1 docs x2,
        context_method self = Some get ->
        get message (ext w) = (Ok context, x1) ->
        truthy context = true ->
        process_text (doc_processor self) context x1 = (Ok docs, x2) ->
        retrieve_context self message w = (Ok docs, mkWorld (log w) (sent w) x2)).
Proof.
  split.
  - intros docs w1 prompt completion x2 top rest text Hr Hprompt Hc Htop Htext.
    destruct (retrieve_context_quiet _ _ _ _ _ Hr) as [Hlog Hsent].
    rewrite (process_message_with_docs _ _ _ _ _ _ Hr Hprompt). simpl.
    by rewrite Hc, Htop, Htext, message_content_str, Hlog, Hsent.
  - intros get context x1 docs x2 Hm Hget Ht Hp.
    by rewrite retrieve_context_eq, Hm, Hget, Ht, Hp.
Qed.

(** C6. The list sent to the provider is the messages' provider pairs:
    [user] for a human message, [assistant] for an AI message, [system] for
    a system message, nothing for a message of any other class, in the
    order of the input. *)
Theorem role_mapping (g : GroqChatModel) (messages : list BaseMessage)
    (stop : option (list string)) w :
  chat_messages_of messages = provider_pairs messages
  /\ provider_pairs messages = omap provider_pair messages
  /\ sent (snd (_generate g messages stop w)) =
       (sent w ++ [mkRequest (model g) (provider_pairs messages) (temperature g) stop])%list.
Proof.
  split; [apply chat_messages_of_pairs|]. split.
  - induction messages as [|m rest IH]; [done|].
    simpl. rewrite IH. by destruct (provider_pair m).
  - rewrite generate_sent. unfold request_of. by rewrite chat_messages_of_pairs.
Qed.

(** C7, as the code has it. When the provider call raises [e], [_generate]
    logs "Error generating response: " followed by [str(e)] and raises that
    same [e] to its caller, not wrapped in any other error; the provider
    has been called once. *)
Theorem generate_propagates (g : GroqChatModel) (messages : list BaseMessage)
    (stop : option (list string)) w e x' :
  completions_create (client g) (request_of g messages stop) (ext w) = (Raise e, x') ->
  _generate g messages stop w =
    (Raise e,
     mkWorld (log w ++ [(ERROR, "Error generating response: " ++ exn_str e)])
             (sent w ++ [request_of g messages stop]) x').
Proof. intros Hc. rewrite generate_eq. simpl. by rewrite Hc. Qed.

(** C8. With no memory manager bound, or one without
    [get_relevant_context], or one that returns nothing, the retrieval step
    yields the empty list without raising, and the turn returns a result
    without source documents. The turn goes on as any turn does: with a
    system prompt that is accepted as a message content, as every string
    is, the model is called with the system prompt and the user message
    only, and when the provider answers with a text the result is that
    text, with nothing logged. *)
Theorem no_context_turn self message w w1 :
  NoContext self message w w1 ->
  retrieve_context self message w = (Ok [], w1)
  /\ (exists r w2, process_message self message w = (Ok r, w2)
                   /\ source_documents r = [])
  /\ (forall prompt,
        message_content "SystemMessage" (system_prompt self) = Ok prompt ->
        let q := mkRequest (model (llm self))
                   [mkChatDict "system" prompt; mkChatDict "user" (PyStr message)]
                   (temperature (llm self)) None in
        sent (snd (process_message self message w)) = (sent w ++ [q])%list
        /\ (forall completion x2 top rest text,
              completions_create (client (llm self)) q (ext w1) = (Ok completion, x2) ->
              choices completion = top :: rest ->
              choice_content top = PyStr text ->
              process_message self message w =
                (Ok (mkPipelineResult (PyStr text) []),
                 mkWorld (log w) (sent w ++ [q]) x2)))
  /\ (forall sp, system_prompt self = PyStr sp ->
        message_content "SystemMessage" (system_prompt self) = Ok (PyStr sp)).
Proof.
  intros Hno.
  assert (retrieve_context self message w = (Ok [], w1)) as Hr.
  { rewrite retrieve_context_eq.
    destruct Hno as [Hmem | mm Hmem Hcap | get context x' Hm Hget Ht].
    - unfold context_method. by rewrite Hmem.
    - unfold context_method. rewrite Hmem, Hcap. by destruct (mm_bool mm).
    - by rewrite Hm, Hget, Ht. }
  split; [done|]. split; [by eapply no_docs_result|]. split.
  - intros prompt Hprompt. by apply turn_without_docs.
  - intros sp ->. apply message_content_str.
Qed.

(** C9, as the code has it. The constructed model's temperature is the
    configuration's [temperature] entry as it is, of any type and any
    magnitude, and the float 0.7 when the entry is absent; no range is
    checked. *)
Theorem temperature_passed_through (config : gmap string PyVal) w agent w' :
  ChatAgent_init config w = (Ok agent, w') ->
  temperature (llm agent) = dict_get_or config "temperature" (PyFloat DEFAULT_TEMPERATURE)
  /\ (forall v, config !! "temperature" = Some v -> temperature (llm agent) = v)
  /\ (config !! "temperature" = None ->
      temperature (llm agent) = PyFloat DEFAULT_TEMPERATURE
      /\ in_unit_interval (temperature (llm agent)) = true).
Proof.
  intros Hinit.
  assert (temperature (llm agent)
          = dict_get_or config "temperature" (PyFloat DEFAULT_TEMPERATURE)) as Ht.
  { revert Hinit.
    unfold ChatAgent_init, init_llm, GroqChatModel_init, try_except, bind, call.
    destruct (negb (truthy (dict_get config "api_key"))); [done|]. simpl.
    destruct (groq_Groq _ _) as [[c|e] x1]; simpl; [|done].
    destruct (DocumentProcessor_new x1) as [[dp|e] x2]; simpl; [|done].
    by intros [= <- <-]. }
  split; [done|]. rewrite Ht. unfold dict_get_or. split.
  - by intros v ->.
  - by intros ->.
Qed.

(** C10. When the memory manager returns a non-empty context but the
    chunker makes no chunk of it, the turn is exactly the turn of the agent
    without memory manager, taken from where the chunker left the
    collaborators, and its result has no source documents. With a system
    prompt that is accepted as a message content, as every string is, the
    messages built are the system prompt and the user message only, with
    no context block, and they are what the model is called with. *)
Theorem empty_chunking_is_no_context self message w get context x1 x2 :
  context_method self = Some get ->
  get message (ext w) = (Ok context, x1) ->
  truthy context = true ->
  process_text (doc_processor self) context x1 = (Ok [], x2) ->
  process_message self message w =
    process_message
      (mkChatAgent (llm self) (doc_processor self) None (system_prompt self))
      message (mkWorld (log w) (sent w) x2)
  /\ (exists r w2, process_message self message w = (Ok r, w2)
                   /\ source_documents r = [])
  /\ (forall prompt,
        message_content "SystemMessage" (system_prompt self) = Ok prompt ->
        let q := mkRequest (model (llm self))
                   [mkChatDict "system" prompt; mkChatDict "user" (PyStr message)]
                   (temperature (llm self)) None in
        build_messages (system_prompt self) [] message (mkWorld (log w) (sent w) x2)
          = (Ok [SystemMessage prompt; HumanMessage (PyStr message)],
             mkWorld (log w) (sent w) x2)
        /\ sent (snd (process_message self message w)) = (sent w ++ [q])%list
        /\ (forall completion x3 top rest text,
              completions_create (client (llm self)) q x2 = (Ok completion, x3) ->
              choices completion = top :: rest ->
              choice_content top = PyStr text ->
              process_message self message w =
                (Ok (mkPipelineResult (PyStr text) []),
                 mkWorld (log w) (sent w ++ [q]) x3)))
  /\ (forall sp, system_prompt self = PyStr sp ->
        message_content "SystemMessage" (system_prompt self) = Ok (PyStr sp)).
Proof.
  intros Hm Hget Ht Hp.
  assert (retrieve_context self message w = (Ok [], mkWorld (log w) (sent w) x2)) as Hr.
  { by rewrite retrieve_context_eq, Hm, Hget, Ht, Hp. }
  split; [by apply no_docs_as_unbound|]. split; [by eapply no_docs_result|]. split.
  - intros prompt Hprompt q. split; [by rewrite build_messages_eq, Hprompt|].
    by apply (turn_without_docs self message w (mkWorld (log w) (sent w) x2) prompt).
  - intros sp ->. apply message_content_str.
Qed.

End Properties.

(** * The claims at work in the scripted environments *)

(** The provider is down: the turn ends in the fallback, both handlers
    having logged the cause. And an agent built with [system_prompt: None]:
    the constructor of the system message refuses it, the turn ends in the
    fallback and nothing is sent. *)
Lemma process_message_contains_failures_witness :
  let self := agent_k (X:=env_flaky) (PyStr "k") tt None in
  let w' := mkWorld (X:=env_flaky)
              [(ERROR, "Error generating response: Connection error.")]
              [request_k [system_k; user_says "Hello"]] 1%nat in
  let mute := mkChatAgent (X:=env_ok)
                (mkGroqChatModel (X:=env_ok) (PyStr "k") (PyStr DEFAULT_MODEL)
                   (PyFloat DEFAULT_TEMPERATURE))
                tt None PyNone in
  (TurnFails self "Hello" (world0 (X:=env_flaky) 0%nat) ConnectionError w'
   /\ process_message self "Hello" (world0 (X:=env_flaky) 0%nat) =
        (Ok FALLBACK_RESULT,
         mkWorld (log w' ++ [(ERROR, "Error processing message: Connection error.")])
                 (sent w') (ext w')))
  /\ process_message mute "Hello" (world0 (X:=env_ok) 0%nat) =
       (Ok FALLBACK_RESULT,
        mkWorld (X:=env_ok)
          [(ERROR, "Error processing message: 1 validation error for SystemMessage")]
          [] 0%nat).
Proof.
  intros self w' mute.
  assert (TurnFails self "Hello" (world0 (X:=env_flaky) 0%nat) ConnectionError w') as Hfail.
  { eapply model_call_fails; reflexivity. }
  split; [split; [exact Hfail|]|].
  - exact (proj1 (proj2 (process_message_contains_failures self "Hello"
                           (world0 (X:=env_flaky) 0%nat)))
             ConnectionError w' Hfail).
  - refine (proj1 (proj2 (process_message_contains_failures mute "Hello"
                            (world0 (X:=env_ok) 0%nat)))
              (mkExn "ValidationError" "1 validation error for SystemMessage")
              (world0 (X:=env_ok) 0%nat) _).
    eapply assembly_fails; reflexivity.
Defined.

(** [ChatAgent({"api_key": "k"})] is built; [ChatAgent({})] raises. *)
Lemma construction_needs_api_key_witness :
  ChatAgent_init (X:=env_ok) config_k (world0 (X:=env_ok) 0%nat) =
    (Ok (mkChatAgent (X:=env_ok)
           (mkGroqChatModel (X:=env_ok) (PyStr "k") (PyStr DEFAULT_MODEL) (PyFloat DEFAULT_TEMPERATURE))
           tt None (PyStr DEFAULT_SYSTEM_PROMPT)),
     mkWorld (X:=env_ok) [(INFO, "Successfully initialized Groq chat model with model: None")] [] 2%nat)
  /\ ChatAgent_init (X:=env_ok) ∅ (world0 (X:=env_ok) 0%nat) =
       (Raise (ValueError "Groq API key is not configured"),
        mkWorld (X:=env_ok) [(ERROR, "Failed to initialize Groq: Groq API key is not configured")]
                [] 0%nat).
Proof.
  split.
  - exact (proj1 (construction_needs_api_key (X:=env_ok) config_k (world0 (X:=env_ok) 0%nat))
             eq_refl (PyStr "k") 1%nat tt 2%nat eq_refl eq_refl).
  - exact (proj1 (proj2 (construction_needs_api_key (X:=env_ok) ∅ (world0 (X:=env_ok) 0%nat)))
             eq_refl).
Defined.

(** C4 as stated fails: the store raises, the provider would have answered
    "Hi there" to the prompt without context, yet the turn does not end
    with that answer. *)
Lemma retrieval_failure_not_recovered :
  let self := agent_k (X:=env_ok) (PyStr "k") tt (Some (store_raising ConnectionError)) in
  ~ (forall get e x',
       context_method self = Some get ->
       get "x" (ext (world0 (X:=env_ok) 0%nat)) = (Raise e, x') ->
       forall completion x2 top rest text,
         completions_create (client (llm self))
           (request_k [system_k; user_says "x"]) x' = (Ok completion, x2) ->
         choices completion = top :: rest ->
         choice_content top = PyStr text ->
         exists w', process_message self "x" (world0 (X:=env_ok) 0%nat) =
                      (Ok (mkPipelineResult (PyStr text) []), w')).
Proof.
  intros self Hclaim.
  destruct (Hclaim _ ConnectionError 0%nat eq_refl eq_refl
              (mkCompletion [mkChoice (PyStr "Hi there")]) 1%nat
              (mkChoice (PyStr "Hi there")) [] "Hi there"
              eq_refl eq_refl eq_refl) as [w' Hw'].
  vm_compute in Hw'. discriminate Hw'.
Qed.

(** The store raises: fallback, one error record, no request sent. *)
Lemma retrieval_failure_gives_fallback_witness :
  let self := agent_k (X:=env_ok) (PyStr "k") tt (Some (store_raising ConnectionError)) in
  process_message self "x" (world0 (X:=env_ok) 0%nat) =
    (Ok FALLBACK_RESULT,
     mkWorld (X:=env_ok) [(ERROR, "Error processing message: Connection error.")] [] 0%nat).
Proof.
  intros self.
  exact (proj1 (retrieval_failure_gives_fallback self "x" (world0 (X:=env_ok) 0%nat) _ eq_refl)
           ConnectionError 0%nat eq_refl).
Defined.

(** The store knows about Paris: three messages reach the provider and the
    result carries the one chunk. *)
Lemma successful_turn_witness :
  let self := agent_k (X:=env_ok) (PyStr "k") tt
                (Some (store_returning (PyStr "Paris is the capital of France"))) in
  process_message self "What is the capital of France?" (world0 (X:=env_ok) 0%nat) =
    (Ok (mkPipelineResult (PyStr "Hi there") [mkDocument "Paris is the capital of France"]),
     mkWorld (X:=env_ok) []
       [request_k [system_k;
                   mkChatDict "system"
                     (PyStr ("Context:" ++ NL ++ "Paris is the capital of France"));
                   user_says "What is the capital of France?"]]
       2%nat).
Proof.
  intros self.
  exact (proj1 (successful_turn self "What is the capital of France?" (world0 (X:=env_ok) 0%nat))
           [mkDocument "Paris is the capital of France"]
           (mkWorld (X:=env_ok) [] [] 1%nat) (PyStr "Be brief.")
           (mkCompletion [mkChoice (PyStr "Hi there")]) 2%nat
           (mkChoice (PyStr "Hi there")) [] "Hi there"
           eq_refl eq_refl eq_refl eq_refl eq_refl).
Defined.

(** C7 as stated fails: the provider raises an [APIConnectionError] and
    what reaches the caller of [_generate] is that error, not a
    [ProviderError]. *)
Lemma propagated_error_is_not_wrapped :
  let g := mkGroqChatModel (X:=env_flaky) (PyStr "k") (PyStr DEFAULT_MODEL)
             (PyFloat DEFAULT_TEMPERATURE) in
  fst (@completions_create env_flaky (client g) (request_k [user_says "Hello"]) 0%nat)
    = Raise ConnectionError
  /\ ~ (forall e w',
          _generate g [HumanMessage (PyStr "Hello")] None (world0 (X:=env_flaky) 0%nat)
            = (Raise e, w') ->
          exn_class e = "ProviderError").
Proof.
  intros g. split; [reflexivity|].
  intros Hclaim. specialize (Hclaim _ _ eq_refl). discriminate Hclaim.
Qed.

(** The provider fails on the first call and would answer the second: the
    adapter raises after one call. *)
Lemma generate_propagates_witness :
  let g := mkGroqChatModel (X:=env_flaky) (PyStr "k") (PyStr DEFAULT_MODEL)
             (PyFloat DEFAULT_TEMPERATURE) in
  @completions_create env_flaky (client g) (request_k [user_says "Hello"]) 1%nat
    = (Ok (mkCompletion [mkChoice (PyStr "Hi there")]), 2%nat)
  /\ _generate g [HumanMessage (PyStr "Hello")] None (world0 (X:=env_flaky) 0%nat) =
       (Raise ConnectionError,
        mkWorld (X:=env_flaky) [(ERROR, "Error generating response: Connection error.")]
                [request_k [user_says "Hello"]] 1%nat).
Proof.
  intros g. split; [reflexivity|].
  exact (generate_propagates g [HumanMessage (PyStr "Hello")] None (world0 (X:=env_flaky) 0%nat)
           ConnectionError 1%nat eq_refl).
Defined.

(** No memory manager bound: "Hello" is answered "Hi there". *)
Lemma no_context_turn_witness :
  let self := agent_k (X:=env_ok) (PyStr "k") tt None in
  process_message self "Hello" (world0 (X:=env_ok) 0%nat) =
    (Ok (mkPipelineResult (PyStr "Hi there") []),
     mkWorld (X:=env_ok) [] [request_k [system_k; user_says "Hello"]] 1%nat).
Proof.
  intros self.
  exact (proj2 (proj1 (proj2 (proj2
                  (no_context_turn self "Hello" (world0 (X:=env_ok) 0%nat)
                     (world0 (X:=env_ok) 0%nat)
                     (unbound self "Hello" (world0 (X:=env_ok) 0%nat) eq_refl))))
                  (PyStr "Be brief.") eq_refl)
           (mkCompletion [mkChoice (PyStr "Hi there")]) 1%nat
           (mkChoice (PyStr "Hi there")) [] "Hi there"
           eq_refl eq_refl eq_refl).
Defined.

(** C9 as stated fails: [{"api_key": "k", "temperature": 5.0}] is accepted
    and the model's temperature is 5.0. *)
Lemma temperature_out_of_range_accepted :
  ChatAgent_init (X:=env_ok) config_hot (world0 (X:=env_ok) 0%nat) =
    (Ok (mkChatAgent (X:=env_ok) (mkGroqChatModel (X:=env_ok) (PyStr "k") (PyStr DEFAULT_MODEL) (PyFloat 5%float))
           tt None (PyStr DEFAULT_SYSTEM_PROMPT)),
     mkWorld (X:=env_ok) [(INFO, "Successfully initialized Groq chat model with model: None")] [] 2%nat)
  /\ ~ (forall agent w',
          ChatAgent_init (X:=env_ok) config_hot (world0 (X:=env_ok) 0%nat) = (Ok agent, w') ->
          in_unit_interval (temperature (llm agent)) = true).
Proof.
  assert (ChatAgent_init (X:=env_ok) config_hot (world0 (X:=env_ok) 0%nat) =
    (Ok (mkChatAgent (X:=env_ok) (mkGroqChatModel (X:=env_ok) (PyStr "k") (PyStr DEFAULT_MODEL) (PyFloat 5%float))
           tt None (PyStr DEFAULT_SYSTEM_PROMPT)),
     mkWorld (X:=env_ok) [(INFO, "Successfully initialized Groq chat model with model: None")] [] 2%nat))
    as Hinit by (vm_compute; reflexivity).
  split; [exact Hinit|].
  intros Hclaim. specialize (Hclaim _ _ Hinit). vm_compute in Hclaim. discriminate Hclaim.
Qed.

(** The temperature 5.0 of the configuration is the model's. *)
Lemma temperature_passed_through_witness :
  let agent := mkChatAgent (X:=env_ok)
                 (mkGroqChatModel (X:=env_ok) (PyStr "k") (PyStr DEFAULT_MODEL) (PyFloat 5%float))
                 tt None (PyStr DEFAULT_SYSTEM_PROMPT) in
  temperature (llm agent) = PyFloat 5%float.
Proof.
  intros agent.
  exact (proj1 (temperature_passed_through (X:=env_ok) config_hot (world0 (X:=env_ok) 0%nat) agent
                  (mkWorld (X:=env_ok) [(INFO, "Successfully initialized Groq chat model with model: None")]
                           [] 2%nat)
                  eq_refl)).
Defined.

(** The store returns text of which the chunker makes nothing: the prompt
    has no context block and the result no source document. *)
Lemma empty_chunking_is_no_context_witness :
  let self := agent_k (X:=env_no_chunks) (PyStr "k") tt
                (Some (store_returning (PyStr "Paris is the capital of France"))) in
  process_message self "Hello" (world0 (X:=env_no_chunks) 0%nat) =
    (Ok (mkPipelineResult (PyStr "Hi there") []),
     mkWorld (X:=env_no_chunks) [] [request_k [system_k; user_says "Hello"]] 2%nat).
Proof.
  intros self.
  exact (proj2 (proj2 (proj1 (proj2 (proj2
                  (empty_chunking_is_no_context self "Hello"
                     (world0 (X:=env_no_chunks) 0%nat) _
                     (PyStr "Paris is the capital of France") 0%nat 1%nat
                     eq_refl eq_refl eq_refl eq_refl)))
                  (PyStr "Be brief.") eq_refl))
           (mkCompletion [mkChoice (PyStr "Hi there")]) 2%nat
           (mkChoice (PyStr "Hi there")) [] "Hi there"
           eq_refl eq_refl eq_refl).
Defined.

(** * Further properties of the agent *)

Section AgentProperties.
Context {X : Externals}.

Implicit Types (self : ChatAgent) (message : string) (w : World).

Lemma snoc_neq {A} (l k : list A) (a : A) : (l ++ k ++ [a])%list <> l.
Proof.
  intros H. apply (f_equal length) in H.
  rewrite !length_app in H. simpl in H. lia.
Qed.

(** ** The adapter again *)

(** A provider answer without any choice is an error of [_generate]:
    [choices[0]] raises [IndexError], which is logged and raised on, after
    the one request. *)
Theorem generate_empty_choices (g : GroqChatModel) (messages : list BaseMessage)
    (stop : option (list string)) w completion x' :
  completions_create (client g) (request_of g messages stop) (ext w) = (Ok completion, x') ->
  choices completion = [] ->
  _generate g messages stop w =
    (Raise (IndexError "list index out of range"),
     mkWorld (log w ++ [(ERROR, "Error generating response: list index out of range")])
             (sent w ++ [request_of g messages stop]) x').
Proof. intros Hc Hnil. rewrite generate_eq. simpl. by rewrite Hc, Hnil. Qed.

(** Of the provider's choices only the first is used: when it has a text,
    the result is one generation, an AI message with that text, and nothing
    is logged. *)
Theorem generate_top_choice (g : GroqChatModel) (messages : list BaseMessage)
    (stop : option (list string)) w completion x' top rest text :
  completions_create (client g) (request_of g messages stop) (ext w) = (Ok completion, x') ->
  choices completion = top :: rest ->
  choice_content top = PyStr text ->
  _generate g messages stop w =
    (Ok (mkChatResult [mkChatGeneration (AIMessage (PyStr text))]),
     mkWorld (log w) (sent w ++ [request_of g messages stop]) x').
Proof.
  intros Hc Htop Htext. rewrite generate_eq. simpl.
  by rewrite Hc, Htop, Htext, message_content_str.
Qed.

(** When the first choice holds what [AIMessage] refuses as a content, as
    it does [None] (an answer without text), the constructor's error is
    logged and raised on by [_generate], after the one request. *)
Theorem generate_refused_content (g : GroqChatModel) (messages : list BaseMessage)
    (stop : option (list string)) w completion x' top rest :
  completions_create (client g) (request_of g messages stop) (ext w) = (Ok completion, x') ->
  choices completion = top :: rest ->
  (forall e,
     message_content "AIMessage" (choice_content top) = Raise e ->
     _generate g messages stop w =
       (Raise e,
        mkWorld (log w ++ [(ERROR, "Error generating response: " ++ exn_str e)])
                (sent w ++ [request_of g messages stop]) x'))
  /\ (choice_content top = PyNone ->
      exists e, message_content "AIMessage" (choice_content top) = Raise e).
Proof.
  intros Hc Htop. split.
  - intros e He. rewrite generate_eq. simpl. by rewrite Hc, Htop, He.
  - intros ->. pose proof (message_content_None "AIMessage") as Hnone.
    destruct (message_content "AIMessage" PyNone) as [c|e]; [by destruct (Hnone c)|eauto].
Qed.

(** Whatever the provider does, [_generate] sends one request; it writes
    one error record when it raises and none when it returns, and what it
    returns has exactly one generation. *)
Theorem generate_footprint (g : GroqChatModel) (messages : list BaseMessage)
    (stop : option (list string)) w :
  sent (snd (_generate g messages stop w)) = (sent w ++ [request_of g messages stop])%list
  /\ match fst (_generate g messages stop w) with
     | Ok r => log (snd (_generate g messages stop w)) = log w
               /\ length (generations r) = 1
     | Raise e => log (snd (_generate g messages stop w))
                  = (log w ++ [(ERROR, ("Error generating response: " ++ exn_str e)%string)])%list
     end.
Proof.
  split; [apply generate_sent|].
  rewrite generate_eq. simpl.
  destruct (completions_create _ _ _) as [[completion|e] x]; [|done].
  destruct (choices completion) as [|top rest]; [done|].
  by destruct (message_content "AIMessage" (choice_content top)).
Qed.

(** Every pair sent carries one of the three provider roles; no more pairs
    are sent than messages were given, and as many exactly when no message
    is of another class. *)
Theorem chat_messages_roles (messages : list BaseMessage) :
  Forall (fun d => cd_role d = "user" \/ cd_role d = "assistant" \/ cd_role d = "system")
         (chat_messages_of messages)
  /\ length (chat_messages_of messages) <= length messages
  /\ (length (chat_messages_of messages) = length messages
      <-> Forall (fun m => provider_role m <> None) messages).
Proof.
  rewrite chat_messages_of_pairs.
  induction messages as [|m rest (IHroles & IHle & IHeq)]; simpl.
  - repeat split; auto.
  - destruct m as [c|c|c|r c]; simpl.
    + repeat split; [constructor; auto | lia | |].
      * intros H. constructor; [done|]. apply IHeq. lia.
      * intros H. inversion H; subst. f_equal. by apply IHeq.
    + repeat split; [constructor; auto | lia | |].
      * intros H. constructor; [done|]. apply IHeq. lia.
      * intros H. inversion H; subst. f_equal. by apply IHeq.
    + repeat split; [constructor; auto | lia | |].
      * intros H. constructor; [done|]. apply IHeq. lia.
      * intros H. inversion H; subst. f_equal. by apply IHeq.
    + repeat split; [done | lia | |].
      * intros H. lia.
      * intros H. inversion H; subst. done.
Qed.

(** The conversion goes through concatenation, and a list of messages of
    other classes only is converted to the empty list, which is then what
    the provider is sent. *)
Theorem chat_messages_app (l1 l2 : list BaseMessage) :
  chat_messages_of (l1 ++ l2) = (chat_messages_of l1 ++ chat_messages_of l2)%list
  /\ (Forall (fun m => provider_role m = None) l1 -> chat_messages_of l1 = []).
Proof.
  rewrite !chat_messages_of_pairs. split; [apply provider_pairs_app|].
  induction 1 as [|m rest Hm _ IH]; [done|].
  simpl. unfold provider_pair. by rewrite Hm.
Qed.

(** ** Construction again *)

(** [ChatAgent.__init__], by what the configuration and the two
    constructors do. *)
Lemma ChatAgent_init_eq (config : gmap string PyVal) w :
  ChatAgent_init config w =
  if truthy (dict_get config "api_key")
  then
    match groq_Groq (dict_get config "api_key") (ext w) with
    | (Ok c, x1) =>
        let w1 := mkWorld
                    (log w ++ [(INFO, "Successfully initialized Groq chat model with model: "
                                      ++ py_str (dict_get config "model"))])
                    (sent w) in
        match DocumentProcessor_new x1 with
        | (Ok dp, x2) =>
            (Ok (mkChatAgent
                   (mkGroqChatModel c
                      (dict_get_or config "model" (PyStr DEFAULT_MODEL))
                      (dict_get_or config "temperature" (PyFloat DEFAULT_TEMPERATURE)))
                   dp None
                   (dict_get_or config "system_prompt" (PyStr DEFAULT_SYSTEM_PROMPT))),
             w1 x2)
        | (Raise e, x2) => (Raise e, w1 x2)
        end
    | (Raise e, x1) =>
        (Raise e,
         mkWorld (log w ++ [(ERROR, "Failed to initialize Groq: " ++ exn_str e)]) (sent w) x1)
    end
  else
    (Raise (ValueError "Groq API key is not configured"),
     mkWorld (log w ++ [(ERROR, "Failed to initialize Groq: Groq API key is not configured")])
             (sent w) (ext w)).
Proof.
  unfold ChatAgent_init, init_llm, GroqChatModel_init, try_except, bind, call.
  destruct (truthy (dict_get config "api_key")); simpl; [|done].
  destruct (groq_Groq _ _) as [[c|e] x1]; simpl; [|done].
  by destruct (DocumentProcessor_new x1) as [[dp|e] x2].
Qed.

(** When the Groq client cannot be built, the error is logged as a failure
    to initialize Groq and raised on as it is; the document processor is
    not built. *)
Theorem init_client_failure (config : gmap string PyVal) w e x1 :
  truthy (dict_get config "api_key") = true ->
  groq_Groq (dict_get config "api_key") (ext w) = (Raise e, x1) ->
  ChatAgent_init config w =
    (Raise e,
     mkWorld (log w ++ [(ERROR, "Failed to initialize Groq: " ++ exn_str e)]) (sent w) x1).
Proof. intros Hkey Hgroq. by rewrite ChatAgent_init_eq, Hkey, Hgroq. Qed.

(** [DocumentProcessor()] is built outside the [try] block: when it raises,
    the error leaves the constructor without an error record, after the
    record that reports success. *)
Theorem init_processor_failure_unlogged (config : gmap string PyVal) w c x1 e x2 :
  truthy (dict_get config "api_key") = true ->
  groq_Groq (dict_get config "api_key") (ext w) = (Ok c, x1) ->
  DocumentProcessor_new x1 = (Raise e, x2) ->
  ChatAgent_init config w =
    (Raise e,
     mkWorld
       (log w ++ [(INFO, "Successfully initialized Groq chat model with model: "
                         ++ py_str (dict_get config "model"))])
       (sent w) x2).
Proof. intros Hkey Hgroq Hdp. by rewrite ChatAgent_init_eq, Hkey, Hgroq, Hdp. Qed.

(** The success record formats [config.get('model')] without the default:
    for a configuration without [model] it reads "None", while the model
    the agent uses is the default one. *)
Theorem init_logs_model_without_default (config : gmap string PyVal) w agent w' :
  config !! "model" = None ->
  ChatAgent_init config w = (Ok agent, w') ->
  model (llm agent) = PyStr "mixtral-8x7b-32768"
  /\ log w' = (log w ++
              [(INFO, "Successfully initialized Groq chat model with model: None")])%list.
Proof.
  intros Hmodel. rewrite ChatAgent_init_eq.
  destruct (truthy (dict_get config "api_key")); [|done].
  destruct (groq_Groq _ _) as [[c|e] x1]; [|done]. simpl.
  destruct (DocumentProcessor_new x1) as [[dp|e] x2]; [|done].
  intros [= <- <-]. simpl. unfold dict_get_or, dict_get. by rewrite Hmodel.
Qed.

(** An agent is built only from a truthy [api_key] and a client built from
    that key; it starts without a memory manager. *)
Theorem accepted_config_has_api_key (config : gmap string PyVal) w agent w' :
  ChatAgent_init config w = (Ok agent, w') ->
  truthy (dict_get config "api_key") = true
  /\ (exists x1, groq_Groq (dict_get config "api_key") (ext w) = (Ok (client (llm agent)), x1))
  /\ memory agent = None.
Proof.
  rewrite ChatAgent_init_eq.
  destruct (truthy (dict_get config "api_key")); [|done].
  destruct (groq_Groq _ _) as [[c|e] x1] eqn:Hgroq; [|done]. simpl.
  destruct (DocumentProcessor_new x1) as [[dp|e] x2]; [|done].
  intros [= <- <-]. simpl. eauto.
Qed.

(** The [model] and [system_prompt] entries are taken as they are when the
    key is present, also when the value is [None]; the defaults are used
    only for an absent key. *)
Theorem init_model_and_prompt (config : gmap string PyVal) w agent w' :
  ChatAgent_init config w = (Ok agent, w') ->
  (forall v, config !! "model" = Some v -> model (llm agent) = v)
  /\ (forall v, config !! "system_prompt" = Some v -> system_prompt agent = v)
  /\ (config !! "model" = None -> model (llm agent) = PyStr DEFAULT_MODEL)
  /\ (config !! "system_prompt" = None ->
      system_prompt agent = PyStr DEFAULT_SYSTEM_PROMPT).
Proof.
  rewrite ChatAgent_init_eq.
  destruct (truthy (dict_get config "api_key")); [|done].
  destruct (groq_Groq _ _) as [[c|e] x1]; [|done]. simpl.
  destruct (DocumentProcessor_new x1) as [[dp|e] x2]; [|done].
  intros [= <- <-]. simpl. unfold dict_get_or.
  repeat split; by intros; simplify_option_eq.
Qed.

(** Construction sends nothing to the provider and writes exactly one log
    record, whatever its outcome; the record is an [INFO] one when an agent
    is returned. *)
Theorem init_footprint (config : gmap string PyVal) w :
  sent (snd (ChatAgent_init config w)) = sent w
  /\ exists lvl msg,
       log (snd (ChatAgent_init config w)) = (log w ++ [(lvl, msg)])%list
       /\ (forall agent, fst (ChatAgent_init config w) = Ok agent -> lvl = INFO).
Proof.
  rewrite ChatAgent_init_eq.
  destruct (truthy (dict_get config "api_key")).
  - destruct (groq_Groq _ _) as [[c|e] x1]; simpl.
    + destruct (DocumentProcessor_new x1) as [[dp|e] x2]; simpl; eauto.
    + split; [done|]. do 2 eexists. split; [done|]. done.
  - simpl. split; [done|]. do 2 eexists. split; [done|]. done.
Qed.

(** ** Turns again *)

(** The log after the [try] block: unchanged when it returned, extended
    when it raised. *)
Lemma try_log self message w r w1 :
  process_message_try self message w = (r, w1) ->
  match r with
  | Ok _ => log w1 = log w
  | Raise _ => exists l, log w1 = (log w ++ l)%list
  end.
Proof.
  unfold process_message_try. unfold bind at 1.
  destruct (retrieve_context self message w) as [[docs|e] w0] eqn:Hr;
    destruct (retrieve_context_quiet _ _ _ _ _ Hr) as [Hlog Hsent].
  - unfold bind at 1. rewrite build_messages_eq.
    destruct (message_content "SystemMessage" (system_prompt self)) as [prompt|e].
    + unfold bind. rewrite generate_eq. simpl.
      destruct (completions_create _ _ _) as [[completion|e] x].
      * destruct (choices completion) as [|top rest]; simpl.
        -- intros [= <- <-]. simpl. rewrite Hlog. eauto.
        -- destruct (message_content "AIMessage" (choice_content top)) as [c|e]; simpl.
           ++ by intros [= <- <-].
           ++ intros [= <- <-]. simpl. rewrite Hlog. eauto.
      * intros [= <- <-]. simpl. rewrite Hlog. eauto.
    + intros [= <- <-]. exists []. by rewrite app_nil_r.
  - intros [= <- <-]. exists []. by rewrite app_nil_r.
Qed.

(** A turn sends one request when its retrieval step succeeds and its
    system prompt is accepted as a message content, built from the
    documents retrieved, and none when that step raises or the prompt is
    refused: never two. *)
Theorem turn_sends_at_most_once self message w :
  match fst (retrieve_context self message w) with
  | Ok docs =>
      match message_content "SystemMessage" (system_prompt self) with
      | Ok prompt =>
          sent (snd (process_message self message w)) =
          (sent w ++ [request_of (llm self) (assemble prompt docs message) None])%list
      | Raise _ => sent (snd (process_message self message w)) = sent w
      end
  | Raise _ => sent (snd (process_message self message w)) = sent w
  end.
Proof.
  destruct (retrieve_context self message w) as [[docs|e] w1] eqn:Hr;
    destruct (retrieve_context_quiet _ _ _ _ _ Hr) as [Hlog Hsent]; simpl.
  - destruct (message_content "SystemMessage" (system_prompt self)) as [prompt|e] eqn:Hp.
    + rewrite (process_message_with_docs _ _ _ _ _ _ Hr Hp). simpl. rewrite Hsent.
      destruct (completions_create _ _ _) as [[completion|e] x]; [|done].
      destruct (choices completion) as [|top rest]; [done|].
      by destruct (message_content "AIMessage" (choice_content top)).
    + by rewrite process_message_eq, Hr, Hp.
  - by rewrite process_message_eq, Hr.
Qed.

Lemma turn_outcome_cases self message w r w' :
  process_message self message w = (Ok r, w') ->
  (process_message_try self message w = (Ok r, w') /\ log w' = log w)
  \/ (exists e w1,
        TurnFails self message w e w1
        /\ r = FALLBACK_RESULT
        /\ log w' = (log w1 ++ [(ERROR, ("Error processing message: " ++ exn_str e)%string)])%list
        /\ log w' <> log w).
Proof.
  unfold process_message, try_except.
  destruct (process_message_try self message w) as [[r0|e] w1] eqn:Htry;
    pose proof (try_log _ _ _ _ _ Htry) as Hlog.
  - intros [= <- <-]. by left.
  - unfold bind, logging_error, ret. intros [= <- <-]. right.
    exists e, w1. split; [by apply turn_fails_iff|].
    split; [done|]. split; [done|].
    destruct Hlog as [l Hl]. simpl. rewrite Hl, <- app_assoc. apply snoc_neq.
Qed.

(** A turn either succeeds, and then writes no log record, or ends in the
    fallback after a failed step, and then writes at least one: the log
    tells the two apart even when the provider's answer is the apology. *)
Theorem turn_outcome self message w r w' :
  process_message self message w = (Ok r, w') ->
  (process_message_try self message w = (Ok r, w') /\ log w' = log w)
  \/ (exists e w1,
        TurnFails self message w e w1
        /\ r = FALLBACK_RESULT
        /\ log w' = (log w1 ++ [(ERROR, ("Error processing message: " ++ exn_str e)%string)])%list
        /\ log w' <> log w).
Proof. apply turn_outcome_cases. Qed.

(** A result that carries source documents comes from a successful turn:
    nothing was logged and the documents are those of the retrieval step. *)
Theorem sources_mean_success self message w r w' :
  process_message self message w = (Ok r, w') ->
  source_documents r <> [] ->
  log w' = log w
  /\ exists w1, retrieve_context self message w = (Ok (source_documents r), w1).
Proof.
  intros Hpm Hsrc.
  destruct (turn_outcome_cases _ _ _ _ _ Hpm) as [[Htry Hlog] | (e & w1 & _ & -> & _)];
    [|done].
  split; [done|]. revert Htry. unfold process_message_try. unfold bind at 1.
  destruct (retrieve_context self message w) as [[docs|e] w1]; [|done].
  unfold bind at 1. rewrite build_messages_eq.
  destruct (message_content "SystemMessage" (system_prompt self)) as [prompt|e]; [|done].
  unfold bind.
  destruct (_generate _ _ _ w1) as [[res|e] w2]; [|done].
  unfold py_getitem. destruct (generations res !! 0); [|done].
  intros [= <- <-]. eauto.
Qed.

(** An agent whose system prompt the message constructor refuses, as it
    does the [None] that [__init__] takes from a configuration: every turn
    whose retrieval step succeeds ends in the fallback with the
    constructor's error logged, after the store was queried and without any
    request to the provider. *)
Theorem refused_prompt_falls_back self message w docs w1 :
  retrieve_context self message w = (Ok docs, w1) ->
  (forall e,
     message_content "SystemMessage" (system_prompt self) = Raise e ->
     process_message self message w =
       (Ok FALLBACK_RESULT,
        mkWorld (log w ++ [(ERROR, "Error processing message: " ++ exn_str e)])
                (sent w) (ext w1)))
  /\ (system_prompt self = PyNone ->
      exists e, message_content "SystemMessage" (system_prompt self) = Raise e).
Proof.
  intros Hr. destruct (retrieve_context_quiet _ _ _ _ _ Hr) as [Hlog Hsent]. split.
  - intros e He. rewrite process_message_eq, Hr, He. unfold emit.
    by rewrite Hlog, Hsent.
  - intros ->. pose proof (message_content_None "SystemMessage") as Hnone.
    destruct (message_content "SystemMessage" PyNone) as [c|e];
      [by destruct (Hnone c)|eauto].
Qed.


Lemma string_app_assoc (a b c : string) : (a ++ b) ++ c = a ++ b ++ c.
Proof.
  induction a as [|ch a IH]; [done|].
  change (String ch ((a ++ b) ++ c) = String ch (a ++ b ++ c)). by rewrite IH.
Qed.

Lemma concat_app_nonempty (sep : string) (l1 l2 : list string) :
  l1 <> [] -> l2 <> [] ->
  String.concat sep (l1 ++ l2) = String.concat sep l1 ++ sep ++ String.concat sep l2.
Proof.
  intros H1 H2. induction l1 as [|a l1 IH]; [done|].
  destruct l1 as [|b l1].
  - destruct l2 as [|c l2]; [done|]. reflexivity.
  - change (String.concat sep ((a :: b :: l1) ++ l2))
      with (a ++ sep ++ String.concat sep ((b :: l1) ++ l2)).
    rewrite IH by done.
    change (String.concat sep (a :: b :: l1))
      with (a ++ sep ++ String.concat sep (b :: l1)).
    by rewrite !string_app_assoc.
Qed.

(** The prompt keeps the chunks' text but not their boundaries: merging
    neighbouring chunks into one chunk holding their joined text gives the
    same messages. *)
Theorem assemble_forgets_boundaries (sp : PyVal) (cs1 cs2 : list Document) (u : string) :
  cs1 <> [] -> cs2 <> [] ->
  assemble sp (cs1 ++ cs2) u =
  assemble sp [mkDocument (String.concat NL (map page_content cs1));
               mkDocument (String.concat NL (map page_content cs2))] u.
Proof.
  intros H1 H2. unfold assemble.
  destruct cs1 as [|c1 cs1]; [done|].
  rewrite map_app, concat_app_nonempty; [done| done |by destruct cs2].
Qed.

(** ** The life cycle *)

(** [initialize] and [cleanup] never raise, touch neither the provider nor
    the collaborators, keep the model, the document processor and the
    system prompt, and write one [INFO] record each. Binding then cleaning
    up gives back an agent that had no memory manager; a second
    [initialize] replaces the manager of the first; a second [cleanup]
    changes nothing more. *)
Theorem life_cycle self (mm1 mm2 : MemoryManager) w :
  initialize self mm1 w =
    (Ok (mkChatAgent (llm self) (doc_processor self) (Some mm1) (system_prompt self)),
     mkWorld (log w ++ [(INFO, "Chat agent initialized with memory manager")])
             (sent w) (ext w))
  /\ cleanup self w =
       (Ok (mkChatAgent (llm self) (doc_processor self) None (system_prompt self)),
        mkWorld (log w ++ [(INFO, "Chat agent cleanup completed")]) (sent w) (ext w))
  /\ (memory self = None ->
      fst ((do a <- initialize self mm1; cleanup a) w) = Ok self)
  /\ fst ((do a <- initialize self mm1; initialize a mm2) w)
     = fst (initialize self mm2 w)
  /\ fst ((do a <- cleanup self; cleanup a) w) = fst (cleanup self w).
Proof.
  repeat split. destruct self as [l dp m sp]. simpl. by intros ->.
Qed.

(** An agent that was cleaned up, or whose memory manager is falsy or has
    no [get_relevant_context], queries neither the store nor the chunker:
    the retrieval step returns no document and leaves the world as it is,
    whatever manager had been bound before. *)
Theorem unbound_never_queries self message w :
  (forall w0 self' w1,
     cleanup self w0 = (Ok self', w1) ->
     retrieve_context self' message w = (Ok [], w))
  /\ (forall mm,
        memory self = Some mm ->
        mm_bool mm = false \/ get_relevant_context mm = None ->
        retrieve_context self message w = (Ok [], w)).
Proof.
  split.
  - intros w0 self' w1 [= <- <-]. by rewrite retrieve_context_eq.
  - intros mm Hmem Hmm. rewrite retrieve_context_eq. unfold context_method.
    rewrite Hmem. destruct Hmm as [-> | ->]; [done|]. by destruct (mm_bool mm).
Qed.

End AgentProperties.

(** * Properties of the Streamlit shell *)

Section ShellProperties.
Context {X : Externals} {Y : Frontend}.

Implicit Types (f : Front) (prompt : option string) (text : string).

Lemma process_message_total (self : ChatAgent) (message : string) (w : World) :
  exists r w', process_message self message w = (Ok r, w').
Proof.
  unfold process_message, try_except.
  destruct (process_message_try self message w) as [[r|e] w']; simpl; eauto.
Qed.

(** ** [initialize_chat_system] *)

(** [initialize_chat_system], by what the loader and the constructors do. *)
Lemma initialize_chat_system_eq f :
  initialize_chat_system f =
  let failed (w : World) (out : list string) (e : Exn) :=
    (Ok None,
     mkFront w out (ui f ++ [st_error ("Error initializing chat system: " ++ exn_str e)])
             (session f)) in
  let out1 :=
    (stdout f ++ [(NL ++ Fore_CYAN ++ "🚀 Initializing AI Chat System..." ++ Style_RESET_ALL)%string])%list in
  match load_config (ext (core f)) with
  | (Raise e, x1) => failed (mkWorld (log (core f)) (sent (core f)) x1) out1 e
  | (Ok config, x1) =>
      let out2 :=
        (out1 ++ [(Fore_CYAN ++ "📚 Initializing Memory System..." ++ Style_RESET_ALL)%string])%list in
      match MemoryManager_new (section_of config "memory") x1 with
      | (Raise e, x2) => failed (mkWorld (log (core f)) (sent (core f)) x2) out2 e
      | (Ok mm, x2) =>
          let out3 :=
            (out2 ++ [(Fore_CYAN ++ "🤖 Initializing AI Agent..." ++ Style_RESET_ALL)%string])%list in
          match ChatAgent_init (section_of config "agent")
                  (mkWorld (log (core f)) (sent (core f)) x2) with
          | (Raise e, w3) => failed w3 out3 e
          | (Ok a, w3) =>
              (Ok (Some (mkChatAgent (llm a) (doc_processor a) (Some mm) (system_prompt a))),
               mkFront
                 (mkWorld (log w3 ++ [(INFO, "Chat agent initialized with memory manager")])
                          (sent w3) (ext w3))
                 (out3 ++ [(Fore_GREEN ++ "✨ Chat system initialized successfully!"
                            ++ Style_RESET_ALL)%string])%list
                 (ui f) (session f))
          end
      end
  end.
Proof.
  unfold initialize_chat_system, ui_try, ui_bind, lift, call, print, show, ui_ret. simpl.
  destruct (load_config _) as [[config|e] x1]; simpl; [|done].
  destruct (MemoryManager_new _ x1) as [[mm|e] x2]; simpl; [|done].
  by destruct (ChatAgent_init _ _) as [[a|e] w3].
Qed.

(** [initialize_chat_system] never raises, sends nothing to the provider
    and leaves the session alone. It returns an agent bound to a memory
    manager without drawing anything, or [None] after drawing one error
    that starts "Error initializing chat system: ". *)
Theorem initialize_chat_system_contains f :
  exists a f',
    initialize_chat_system f = (Ok a, f')
    /\ session f' = session f
    /\ sent (core f') = sent (core f)
    /\ match a with
       | Some agent => ui f' = ui f /\ exists mm, memory agent = Some mm
       | None => exists e,
           ui f' = (ui f ++ [st_error ("Error initializing chat system: " ++ exn_str e)%string])%list
       end.
Proof.
  rewrite initialize_chat_system_eq. simpl.
  destruct (load_config _) as [[config|e] x1]; [|by eauto 10].
  destruct (MemoryManager_new _ x1) as [[mm|e] x2]; [|by eauto 10].
  assert (sent (snd (ChatAgent_init (section_of config "agent")
                       (mkWorld (log (core f)) (sent (core f)) x2))) = sent (core f))
    as Hsent.
  { rewrite ChatAgent_init_eq. destruct (truthy _); [|done].
    destruct (groq_Groq _ _) as [[c|e] y1]; [|done]. simpl.
    by destruct (DocumentProcessor_new y1) as [[dp|e] y2]. }
  destruct (ChatAgent_init _ _) as [[a|e] w3]; simpl in *.
  - do 2 eexists. split; [done|]. eauto 10.
  - do 2 eexists. split; [done|]. eauto 10.
Qed.

(** With an [agent] section that has no usable [api_key], and so with no
    [agent] section at all, initialization gives [None] and shows the
    constructor's error; the configuration was loaded and the memory
    manager built before the agent was tried. *)
Theorem initialize_without_api_key f config x1 mm x2 :
  load_config (ext (core f)) = (Ok config, x1) ->
  MemoryManager_new (section_of config "memory") x1 = (Ok mm, x2) ->
  truthy (dict_get (section_of config "agent") "api_key") = false ->
  initialize_chat_system f =
    (Ok None,
     mkFront
       (mkWorld
          (log (core f)
           ++ [(ERROR, "Failed to initialize Groq: Groq API key is not configured")])
          (sent (core f)) x2)
       (stdout f ++
        [(NL ++ Fore_CYAN ++ "🚀 Initializing AI Chat System..." ++ Style_RESET_ALL)%string;
         (Fore_CYAN ++ "📚 Initializing Memory System..." ++ Style_RESET_ALL)%string;
         (Fore_CYAN ++ "🤖 Initializing AI Agent..." ++ Style_RESET_ALL)%string])
       (ui f ++
        [st_error "Error initializing chat system: Groq API key is not configured"])
       (session f))
  /\ (config !! "agent" = None ->
      truthy (dict_get (section_of config "agent") "api_key") = false).
Proof.
  intros Hload Hmm Hkey. split; [|by unfold section_of; intros ->].
  rewrite initialize_chat_system_eq. simpl. rewrite Hload, Hmm.
  rewrite ChatAgent_init_eq, Hkey. simpl. by rewrite <- !app_assoc.
Qed.

(** When the loader and the constructors succeed, the agent returned is
    the one built from the [agent] section, bound to the manager built from
    the [memory] section; four lines were printed and nothing was drawn. *)
Theorem initialize_chat_system_success f config x1 mm x2 a w3 :
  load_config (ext (core f)) = (Ok config, x1) ->
  MemoryManager_new (section_of config "memory") x1 = (Ok mm, x2) ->
  ChatAgent_init (section_of config "agent") (mkWorld (log (core f)) (sent (core f)) x2)
    = (Ok a, w3) ->
  exists f',
    initialize_chat_system f =
      (Ok (Some (mkChatAgent (llm a) (doc_processor a) (Some mm) (system_prompt a))), f')
    /\ ui f' = ui f
    /\ length (stdout f') = length (stdout f) + 4
    /\ ext (core f') = ext w3
    /\ log (core f') =
       (log (core f) ++
        [(INFO, ("Successfully initialized Groq chat model with model: "
                 ++ py_str (dict_get (section_of config "agent") "model"))%string);
         (INFO, "Chat agent initialized with memory manager")])%list.
Proof.
  intros Hload Hmm Hinit.
  rewrite initialize_chat_system_eq. simpl. rewrite Hload, Hmm, Hinit.
  eexists. split; [done|]. simpl. split; [done|].
  split; [rewrite !length_app; simpl; lia|]. split; [done|].
  revert Hinit. rewrite ChatAgent_init_eq.
  destruct (truthy _); [|done].
  destruct (groq_Groq _ _) as [[c|e] y1]; [|done]. simpl.
  destruct (DocumentProcessor_new y1) as [[dp|e] y2]; [|done].
  intros [= <- <-]. simpl. by rewrite <- app_assoc.
Qed.

(** ** One run of the script *)

(** What the display loop draws. *)
Lemma display_eq (l : list ChatDict) f :
  display l f =
  (Ok tt,
   mkFront (core f) (stdout f)
     (ui f ++ flat_map (fun m => [st_chat_message (cd_role m); st_markdown (cd_content m)]) l)
     (session f)).
Proof.
  revert f. induction l as [|m rest IH]; intros f.
  - simpl. unfold ui_ret. rewrite app_nil_r. by destruct f.
  - simpl. unfold ui_bind, show. simpl. rewrite IH. simpl.
    by rewrite <- !app_assoc.
Qed.

(** A submitted prompt always adds two entries to the transcript and never
    raises; the reply is the agent's response, or an error text when the
    session holds no agent. *)
Lemma chat_turn_eq text f (l : list ChatDict) :
  ss_messages (session f) = Some l ->
  let drawn :=
    (ui f ++ [st_chat_message "user"; st_markdown (PyStr text);
              st_chat_message "assistant"; st_spinner "🤔 AI is thinking..."])%list in
  let said (w : World) (ev : UIEvent) (reply : PyVal) :=
    (Ok tt,
     mkFront w (stdout f) (drawn ++ [ev])
       (mkSessionState
          (Some (l ++ [mkChatDict "user" (PyStr text); mkChatDict "assistant" reply])%list)
          (ss_agent (session f)))) in
  let complaint (msg : string) :=
    said (core f) (st_error ("Error generating response: " ++ msg))
         (PyStr ("❌ " ++ "Error generating response: " ++ msg)) in
  chat_turn text f =
  match ss_agent (session f) with
  | Some (Some self) =>
      match process_message self text (core f) with
      | (Ok r, w') => said w' (st_markdown (response r)) (response r)
      | (Raise e, w') =>
          said w' (st_error ("Error generating response: " ++ exn_str e))
               (PyStr ("❌ " ++ "Error generating response: " ++ exn_str e))
      end
  | Some None => complaint "'NoneType' object has no attribute 'process_message'"
  | None => complaint (missing_key "agent")
  end.
Proof.
  intros Hl. unfold chat_turn, append_message, ui_try, ui_bind, read_messages,
    write_messages, show, read_agent, agent_process_message, lift, ui_raise, get_response.
  simpl. rewrite Hl. simpl.
  destruct (ss_agent (session f)) as [[self|]|]; simpl.
  - destruct (process_message self text (core f)) as [[r|e] w']; simpl;
      by rewrite <- !app_assoc.
  - by rewrite <- !app_assoc.
  - by rewrite <- !app_assoc.
Qed.

Lemma chat_turn_ok text f (l : list ChatDict) :
  ss_messages (session f) = Some l ->
  exists f', chat_turn text f = (Ok tt, f')
             /\ stdout f' = stdout f
             /\ ss_agent (session f') = ss_agent (session f)
             /\ exists reply,
                  ss_messages (session f') =
                  Some (l ++ [mkChatDict "user" (PyStr text);
                              mkChatDict "assistant" reply])%list.
Proof.
  intros Hl. rewrite (chat_turn_eq text f l Hl). simpl.
  destruct (ss_agent (session f)) as [[self|]|]; [|by eauto 10..].
  destruct (process_message_total self text (core f)) as (r & w' & ->). eauto 10.
Qed.

(** The page below the header, for a session that has a transcript. *)
Lemma main_page_eq prompt (clear_clicked : bool) f (l : list ChatDict) :
  ss_messages (session f) = Some l ->
  main_page prompt clear_clicked f =
  let f1 := mkFront (core f) (stdout f)
              (ui f ++ drawn_transcript l ++ [st_chat_input "Type your message here..."])
              (session f) in
  let f2 := match submitted prompt with
            | Some text => snd (chat_turn text f1)
            | None => f1
            end in
  if clear_clicked
  then (Ok Rerun,
        mkFront (core f2) (stdout f2) (ui f2 ++ [st_sidebar_button "🗑️ Clear Chat"])
          (mkSessionState (Some []) (ss_agent (session f2))))
  else (Ok Completed,
        mkFront (core f2) (stdout f2)
          (ui f2 ++ [st_sidebar_button "🗑️ Clear Chat"; st_sidebar;
                     st_markdown (PyStr "### 💡 Tips"); st_markdown (PyStr TIPS)])
          (session f2)).
Proof.
  intros Hl. unfold main_page, ui_bind at 1 2 3, read_messages. rewrite Hl.
  rewrite display_eq. unfold show at 1. simpl.
  rewrite <- app_assoc. fold (drawn_transcript l).
  set (f1 := mkFront (core f) (stdout f) _ (session f)).
  assert (exists f2,
            (match prompt with
             | Some text => if truthy (PyStr text) then chat_turn text else ui_ret tt
             | None => ui_ret tt
             end) f1 = (Ok tt, f2)
            /\ f2 = match submitted prompt with
                    | Some text => snd (chat_turn text f1)
                    | None => f1
                    end) as (f2 & Hrun & Hf2).
  { unfold submitted. destruct prompt as [text|]; [|by eexists].
    destruct (truthy (PyStr text)); [|by eexists].
    destruct (chat_turn_ok text f1 l Hl) as (f2 & Hturn & _).
    exists f2. by rewrite Hturn. }
  unfold truthy in Hrun. unfold ui_bind at 1. rewrite Hrun, <- Hf2.
  unfold ui_bind, show, write_messages, ui_ret. simpl.
  destruct clear_clicked; simpl; [done|].
  rewrite <- !app_assoc. by destruct f2 as [? ? ? []].
Qed.

(** A run, by whether the session already has the [agent] key. *)
Lemma main_eq prompt (clear_clicked : bool) f :
  main prompt clear_clicked f =
  match ss_agent (session f) with
  | Some a => main_page prompt clear_clicked (opened f (Some a))
  | None =>
      match initialize_chat_system (opened f None) with
      | (Ok (Some agent), f1) =>
          main_page prompt clear_clicked
            (mkFront (core f1) (stdout f1) (ui f1)
               (mkSessionState (ss_messages (session f1)) (Some (Some agent))))
      | (Ok None, f1) =>
          (Ok Returned,
           mkFront (core f1) (stdout f1)
             (ui f1 ++ [st_error
                "Failed to initialize chat system. Please check your configuration and try again."])
             (mkSessionState (ss_messages (session f1)) (Some None)))
      | (Raise e, f1) => (Raise e, f1)
      end
  end.
Proof.
  unfold main, ui_bind at 1 2 3 4 5, show, write_messages. simpl.
  rewrite <- !app_assoc. simpl.
  assert ((match ss_messages (session f) with
           | Some _ =>
               (Ok tt, mkFront (core f) (stdout f) (ui f ++ HEADER) (session f))
           | None =>
               (Ok tt, mkFront (core f) (stdout f) (ui f ++ HEADER)
                         (mkSessionState (Some []) (ss_agent (session f))))
           end) = (Ok tt, opened f (ss_agent (session f)))) as Hopen.
  { unfold opened, transcript. destruct (session f) as [[l|] a]; done. }
  unfold HEADER in Hopen. simpl in Hopen. rewrite Hopen. simpl.
  destruct (ss_agent (session f)) as [a|] eqn:Ha; [done|].
  unfold ui_bind, write_agent, show, ui_ret.
  destruct (initialize_chat_system _) as [[[agent|]|e] f1]; done.
Qed.

Lemma initialize_chat_system_ok f :
  exists a f', initialize_chat_system f = (Ok a, f') /\ session f' = session f.
Proof.
  rewrite initialize_chat_system_eq. simpl.
  destruct (load_config _) as [[config|e] x1]; [|by eauto].
  destruct (MemoryManager_new _ x1) as [[mm|e] x2]; [|by eauto].
  destruct (ChatAgent_init _ _) as [[a|e] w3]; by eauto.
Qed.

(** What a run of the page does to the session. *)
Lemma main_page_session prompt (clear_clicked : bool) f (l : list ChatDict) :
  ss_messages (session f) = Some l ->
  exists f',
    main_page prompt clear_clicked f = (Ok (if clear_clicked then Rerun else Completed), f')
    /\ ss_agent (session f') = ss_agent (session f)
    /\ (clear_clicked = true -> ss_messages (session f') = Some [])
    /\ (clear_clicked = false ->
        match submitted prompt with
        | None => ss_messages (session f') = Some l
        | Some text =>
            exists reply,
              ss_messages (session f') =
              Some (l ++ [mkChatDict "user" (PyStr text);
                          mkChatDict "assistant" reply])%list
        end).
Proof.
  intros Hl. rewrite (main_page_eq prompt clear_clicked f l Hl). simpl.
  set (f1 := mkFront (core f) (stdout f) _ (session f)).
  assert (ss_agent (session
            match submitted prompt with
            | Some text => snd (chat_turn text f1)
            | None => f1
            end) = ss_agent (session f)
          /\ match submitted prompt with
             | None => ss_messages (session f1) = Some l
             | Some text =>
                 exists reply,
                   ss_messages (session (snd (chat_turn text f1))) =
                   Some (l ++ [mkChatDict "user" (PyStr text);
                               mkChatDict "assistant" reply])%list
             end) as [Hagent Hmsgs].
  { destruct (submitted prompt) as [text|]; [|done].
    destruct (chat_turn_ok text f1 l Hl) as (f2 & -> & _ & Ha & reply & Hm). eauto. }
  destruct clear_clicked; eexists; (split; [done|]); simpl.
  - by repeat split.
  - repeat split; [done..|]. intros _. by destruct (submitted prompt).
Qed.

(** ** The runs *)

(** A run of the script never raises, whatever the session holds and
    whatever the collaborators do, and leaves both keys in the session. *)
Theorem main_never_raises prompt (clear_clicked : bool) f :
  exists e f',
    main prompt clear_clicked f = (Ok e, f')
    /\ (exists l, ss_messages (session f') = Some l)
    /\ (exists a, ss_agent (session f') = Some a).
Proof.
  rewrite main_eq. destruct (ss_agent (session f)) as [a|] eqn:Ha.
  - destruct (main_page_session prompt clear_clicked (opened f (Some a)) _ eq_refl)
      as (f' & -> & Hagent & Hclear & Hkeep).
    simpl in Hagent. do 2 eexists. split; [done|]. split; [|by eauto].
    destruct clear_clicked; [by eauto|].
    specialize (Hkeep eq_refl). destruct (submitted prompt); [|by eauto].
    destruct Hkeep as [reply Hk]. eauto.
  - destruct (initialize_chat_system_ok (opened f None)) as (a & f1 & -> & Hs).
    destruct a as [agent|].
    + destruct (main_page_session prompt clear_clicked
                  (mkFront (core f1) (stdout f1) (ui f1)
                     (mkSessionState (ss_messages (session f1)) (Some (Some agent))))
                  (transcript (session f)))
        as (f' & -> & Hagent & Hclear & Hkeep); [by rewrite Hs|].
      simpl in Hagent. do 2 eexists. split; [done|]. split; [|by eauto].
      destruct clear_clicked; [by eauto|].
      specialize (Hkeep eq_refl). destruct (submitted prompt); [|by eauto].
      destruct Hkeep as [reply Hk]. eauto.
    + do 2 eexists. split; [done|]. simpl. rewrite Hs. simpl. eauto.
Qed.

(** How the transcript changes in a run: [st.rerun()] only after a click
    on clear, leaving it empty; an early return only with [None] stored as
    the agent, leaving it as it was; otherwise it is as it was, or longer
    by the user's entry followed by one assistant entry when a non-empty
    prompt was submitted. *)
Theorem transcript_growth prompt (clear_clicked : bool) f e f' :
  main prompt clear_clicked f = (Ok e, f') ->
  match e with
  | Rerun => clear_clicked = true /\ ss_messages (session f') = Some []
  | Returned =>
      ss_messages (session f') = Some (transcript (session f))
      /\ ss_agent (session f) = None /\ ss_agent (session f') = Some None
  | Completed =>
      clear_clicked = false
      /\ match submitted prompt with
         | None => ss_messages (session f') = Some (transcript (session f))
         | Some text =>
             exists reply,
               ss_messages (session f') =
               Some (transcript (session f)
                     ++ [mkChatDict "user" (PyStr text);
                         mkChatDict "assistant" reply])%list
         end
  end.
Proof.
  rewrite main_eq. destruct (ss_agent (session f)) as [a|] eqn:Ha.
  - destruct (main_page_session prompt clear_clicked (opened f (Some a)) _ eq_refl)
      as (f2 & -> & Hagent & Hclear & Hkeep).
    intros [= <- <-]. destruct clear_clicked; (split; [done|]); [exact (Hclear eq_refl) | exact (Hkeep eq_refl)].
  - destruct (initialize_chat_system_ok (opened f None)) as (a & f1 & -> & Hs).
    destruct a as [agent|].
    + destruct (main_page_session prompt clear_clicked
                  (mkFront (core f1) (stdout f1) (ui f1)
                     (mkSessionState (ss_messages (session f1)) (Some (Some agent))))
                  (transcript (session f)))
        as (f2 & -> & Hagent & Hclear & Hkeep); [by rewrite Hs|].
      intros [= <- <-]. destruct clear_clicked; (split; [done|]); [exact (Hclear eq_refl) | exact (Hkeep eq_refl)].
    + intros [= <- <-]. simpl. by rewrite Hs.
Qed.

(** A run with an agent in the session and a non-empty prompt: the agent
    processes the prompt once, its response is drawn and stored as the
    assistant's entry after the user's, and no error is drawn, also when
    the response is the agent's fallback. *)
Theorem main_turn f (self : ChatAgent) text (r : PipelineResult) (w' : World) :
  ss_agent (session f) = Some (Some self) ->
  text <> "" ->
  process_message self text (core f) = (Ok r, w') ->
  main (Some text) false f =
    (Ok Completed,
     mkFront w' (stdout f)
       (ui f ++ HEADER ++ drawn_transcript (transcript (session f))
        ++ [st_chat_input "Type your message here...";
            st_chat_message "user"; st_markdown (PyStr text);
            st_chat_message "assistant"; st_spinner "🤔 AI is thinking...";
            st_markdown (response r);
            st_sidebar_button "🗑️ Clear Chat"; st_sidebar;
            st_markdown (PyStr "### 💡 Tips"); st_markdown (PyStr TIPS)])
       (mkSessionState
          (Some (transcript (session f)
                 ++ [mkChatDict "user" (PyStr text);
                     mkChatDict "assistant" (response r)])%list)
          (Some (Some self)))).
Proof.
  intros Ha Htext Hpm. rewrite main_eq, Ha.
  erewrite main_page_eq by reflexivity. cbv zeta. unfold submitted.
  replace (truthy (PyStr text)) with true
    by (simpl; destruct (String.eqb_spec text ""); done).
  erewrite chat_turn_eq by reflexivity. simpl. rewrite Hpm. simpl.
  by rewrite <- !app_assoc.
Qed.

(** After a failed initialization the session holds [None] as its agent:
    later runs do not initialize again; a prompt is answered with the
    [AttributeError] text, drawn as an error and stored with a cross, and
    neither the agent's collaborators nor the provider are reached. *)
Theorem main_after_failed_init f text :
  ss_agent (session f) = Some None ->
  text <> "" ->
  let msg :=
    "Error generating response: 'NoneType' object has no attribute 'process_message'" in
  main (Some text) false f =
    (Ok Completed,
     mkFront (core f) (stdout f)
       (ui f ++ HEADER ++ drawn_transcript (transcript (session f))
        ++ [st_chat_input "Type your message here...";
            st_chat_message "user"; st_markdown (PyStr text);
            st_chat_message "assistant"; st_spinner "🤔 AI is thinking...";
            st_error msg;
            st_sidebar_button "🗑️ Clear Chat"; st_sidebar;
            st_markdown (PyStr "### 💡 Tips"); st_markdown (PyStr TIPS)])
       (mkSessionState
          (Some (transcript (session f)
                 ++ [mkChatDict "user" (PyStr text);
                     mkChatDict "assistant" (PyStr ("❌ " ++ msg))])%list)
          (Some None))).
Proof.
  intros Ha Htext msg. rewrite main_eq, Ha.
  erewrite main_page_eq by reflexivity. cbv zeta. unfold submitted.
  replace (truthy (PyStr text)) with true
    by (simpl; destruct (String.eqb_spec text ""); done).
  erewrite chat_turn_eq by reflexivity. simpl.
  by rewrite <- !app_assoc.
Qed.

(** A run without a prompt, or with the empty prompt, in a session that has
    the agent key: the transcript is drawn again and nothing else happens;
    the agent is not called, nothing is printed. *)
Theorem main_idle f (a : option ChatAgent) prompt :
  ss_agent (session f) = Some a ->
  prompt = None \/ prompt = Some "" ->
  main prompt false f =
    (Ok Completed,
     mkFront (core f) (stdout f)
       (ui f ++ HEADER ++ drawn_transcript (transcript (session f))
        ++ [st_chat_input "Type your message here...";
            st_sidebar_button "🗑️ Clear Chat"; st_sidebar;
            st_markdown (PyStr "### 💡 Tips"); st_markdown (PyStr TIPS)])
       (mkSessionState (Some (transcript (session f))) (Some a))).
Proof.
  intros Ha Hprompt. rewrite main_eq, Ha.
  erewrite main_page_eq by reflexivity. cbv zeta.
  replace (submitted prompt) with (@None string) by (by destruct Hprompt as [-> | ->]).
  simpl. by rewrite <- !app_assoc.
Qed.

(** A click on clear empties the transcript and reruns the script, but
    only at the end of the run: a prompt submitted in the same run is still
    processed, with the same effect on the agent's world as without the
    click, and its two entries are dropped with the rest. *)
Theorem main_clear f (a : option ChatAgent) prompt :
  ss_agent (session f) = Some a ->
  exists f',
    main prompt true f = (Ok Rerun, f')
    /\ session f' = mkSessionState (Some []) (Some a)
    /\ core f' = core (snd (main prompt false f))
    /\ stdout f' = stdout f.
Proof.
  intros Ha. rewrite !main_eq, Ha.
  erewrite !main_page_eq by reflexivity. cbv zeta.
  eexists. split; [done|]. simpl.
  destruct (submitted prompt) as [text|]; [|done].
  destruct (chat_turn_ok text
              (mkFront (core f) (stdout f)
                 ((ui f ++ HEADER) ++ drawn_transcript (transcript (session f))
                  ++ [st_chat_input "Type your message here..."])
                 (mkSessionState (Some (transcript (session f))) (Some a)))
              _ eq_refl) as (f2 & Hturn & Hout & Hagent & _).
  unfold opened. simpl. rewrite Hturn. simpl. by rewrite Hagent, Hout.
Qed.

(** The first run with a configuration that has no usable [api_key]: two
    errors are drawn, the second asking to check the configuration, the
    script returns before drawing the transcript or the chat input, and the
    session keeps [None] as its agent. *)
Theorem main_first_run_without_key f prompt (clear_clicked : bool) config x1 mm x2 :
  ss_agent (session f) = None ->
  load_config (ext (core f)) = (Ok config, x1) ->
  MemoryManager_new (section_of config "memory") x1 = (Ok mm, x2) ->
  truthy (dict_get (section_of config "agent") "api_key") = false ->
  exists f',
    main prompt clear_clicked f = (Ok Returned, f')
    /\ session f' = mkSessionState (Some (transcript (session f))) (Some None)
    /\ ui f' =
       (ui f ++ HEADER ++
        [st_error "Error initializing chat system: Groq API key is not configured";
         st_error
           "Failed to initialize chat system. Please check your configuration and try again."])%list
    /\ sent (core f') = sent (core f).
Proof.
  intros Ha Hload Hmm Hkey. rewrite main_eq, Ha.
  rewrite initialize_chat_system_eq. simpl. rewrite Hload, Hmm.
  rewrite ChatAgent_init_eq, Hkey. simpl.
  eexists. split; [done|]. simpl. by rewrite <- !app_assoc.
Qed.

End ShellProperties.

(** * The further properties at work in the scripted environments *)

Lemma generate_empty_choices_witness :
  let g := mkGroqChatModel (X:=env_silent) (PyStr "k") (PyStr DEFAULT_MODEL)
             (PyFloat DEFAULT_TEMPERATURE) in
  _generate g [HumanMessage (PyStr "Hello")] None (world0 (X:=env_silent) 0%nat) =
    (Raise (IndexError "list index out of range"),
     mkWorld (X:=env_silent)
       [(ERROR, "Error generating response: list index out of range")]
       [request_k [user_says "Hello"]] 1%nat).
Proof.
  intros g.
  exact (generate_empty_choices g [HumanMessage (PyStr "Hello")] None
           (world0 (X:=env_silent) 0%nat) (mkCompletion []) 1%nat eq_refl eq_refl).
Defined.

Lemma generate_top_choice_witness :
  let g := mkGroqChatModel (X:=env_two) (PyStr "k") (PyStr DEFAULT_MODEL)
             (PyFloat DEFAULT_TEMPERATURE) in
  _generate g [HumanMessage (PyStr "Hello")] None (world0 (X:=env_two) 0%nat) =
    (Ok (mkChatResult [mkChatGeneration (AIMessage (PyStr "Hi there"))]),
     mkWorld (X:=env_two) [] [request_k [user_says "Hello"]] 1%nat).
Proof.
  intros g.
  exact (generate_top_choice g [HumanMessage (PyStr "Hello")] None
           (world0 (X:=env_two) 0%nat)
           (mkCompletion [mkChoice (PyStr "Hi there"); mkChoice (PyStr "Hello")]) 1%nat
           (mkChoice (PyStr "Hi there")) [mkChoice (PyStr "Hello")] "Hi there"
           eq_refl eq_refl eq_refl).
Defined.

(** An answer without text: the adapter raises the validation error. *)
Lemma generate_refused_content_witness :
  let g := mkGroqChatModel (X:=env_wordless) (PyStr "k") (PyStr DEFAULT_MODEL)
             (PyFloat DEFAULT_TEMPERATURE) in
  _generate g [HumanMessage (PyStr "Hello")] None (world0 (X:=env_wordless) 0%nat) =
    (Raise (mkExn "ValidationError" "1 validation error for AIMessage"),
     mkWorld (X:=env_wordless)
       [(ERROR, "Error generating response: 1 validation error for AIMessage")]
       [request_k [user_says "Hello"]] 1%nat).
Proof.
  intros g.
  exact (proj1 (generate_refused_content g [HumanMessage (PyStr "Hello")] None
                  (world0 (X:=env_wordless) 0%nat)
                  (mkCompletion [mkChoice PyNone]) 1%nat (mkChoice PyNone) []
                  eq_refl eq_refl)
           (mkExn "ValidationError" "1 validation error for AIMessage") eq_refl).
Defined.

Lemma chat_messages_app_witness :
  chat_messages_of [ChatMessage "tool" (PyStr "42"); ChatMessage "critic" PyNone] = [].
Proof.
  apply (proj2 (chat_messages_app
                  [ChatMessage "tool" (PyStr "42"); ChatMessage "critic" PyNone] [])).
  repeat constructor.
Defined.

Lemma init_client_failure_witness :
  ChatAgent_init (X:=env_no_client) config_k (world0 (X:=env_no_client) 0%nat) =
    (Raise ConnectionError,
     mkWorld (X:=env_no_client)
       [(ERROR, "Failed to initialize Groq: Connection error.")] [] 1%nat).
Proof.
  exact (init_client_failure (X:=env_no_client) config_k (world0 (X:=env_no_client) 0%nat)
           ConnectionError 1%nat eq_refl eq_refl).
Defined.

Lemma init_processor_failure_unlogged_witness :
  ChatAgent_init (X:=env_no_processor) config_k (world0 (X:=env_no_processor) 0%nat) =
    (Raise (mkExn "ImportError" "No module named nltk"),
     mkWorld (X:=env_no_processor)
       [(INFO, "Successfully initialized Groq chat model with model: None")] [] 2%nat).
Proof.
  exact (init_processor_failure_unlogged (X:=env_no_processor) config_k
           (world0 (X:=env_no_processor) 0%nat) (PyStr "k") 1%nat
           (mkExn "ImportError" "No module named nltk") 2%nat eq_refl eq_refl eq_refl).
Defined.

Lemma init_logs_model_without_default_witness :
  let agent := mkChatAgent (X:=env_ok)
                 (mkGroqChatModel (X:=env_ok) (PyStr "k") (PyStr DEFAULT_MODEL)
                    (PyFloat DEFAULT_TEMPERATURE))
                 tt None (PyStr DEFAULT_SYSTEM_PROMPT) in
  model (llm agent) = PyStr "mixtral-8x7b-32768"
  /\ log (snd (ChatAgent_init (X:=env_ok) config_k (world0 (X:=env_ok) 0%nat)))
     = [(INFO, "Successfully initialized Groq chat model with model: None")].
Proof.
  intros agent.
  exact (init_logs_model_without_default (X:=env_ok) config_k (world0 (X:=env_ok) 0%nat)
           agent
           (mkWorld (X:=env_ok)
              [(INFO, "Successfully initialized Groq chat model with model: None")]
              [] 2%nat)
           eq_refl eq_refl).
Defined.

Lemma accepted_config_has_api_key_witness :
  truthy (dict_get config_k "api_key") = true.
Proof.
  exact (proj1 (accepted_config_has_api_key (X:=env_ok) config_k
                  (world0 (X:=env_ok) 0%nat)
                  (mkChatAgent (X:=env_ok)
                     (mkGroqChatModel (X:=env_ok) (PyStr "k") (PyStr DEFAULT_MODEL)
                        (PyFloat DEFAULT_TEMPERATURE))
                     tt None (PyStr DEFAULT_SYSTEM_PROMPT))
                  (mkWorld (X:=env_ok)
                     [(INFO, "Successfully initialized Groq chat model with model: None")]
                     [] 2%nat)
                  eq_refl)).
Defined.

(** [{"api_key": "k", "model": None}] gives a model named [None]. *)
Lemma init_model_and_prompt_witness :
  let agent := mkChatAgent (X:=env_ok)
                 (mkGroqChatModel (X:=env_ok) (PyStr "k") PyNone
                    (PyFloat DEFAULT_TEMPERATURE))
                 tt None (PyStr DEFAULT_SYSTEM_PROMPT) in
  model (llm agent) = PyNone /\ system_prompt agent = PyStr DEFAULT_SYSTEM_PROMPT.
Proof.
  intros agent.
  pose proof (init_model_and_prompt (X:=env_ok) config_null_model
                (world0 (X:=env_ok) 0%nat) agent
                (mkWorld (X:=env_ok)
                   [(INFO, "Successfully initialized Groq chat model with model: None")]
                   [] 2%nat)
                eq_refl) as (Hmodel & _ & _ & Hprompt).
  split; [exact (Hmodel PyNone eq_refl) | exact (Hprompt eq_refl)].
Defined.

Lemma init_footprint_witness :
  exists msg,
    log (snd (ChatAgent_init (X:=env_ok) config_k (world0 (X:=env_ok) 0%nat)))
    = [(INFO, msg)].
Proof.
  destruct (init_footprint (X:=env_ok) config_k (world0 (X:=env_ok) 0%nat))
    as (_ & lvl & msg & Hlog & Hinfo).
  exists msg. rewrite Hlog.
  rewrite (Hinfo (mkChatAgent (X:=env_ok)
                    (mkGroqChatModel (X:=env_ok) (PyStr "k") (PyStr DEFAULT_MODEL)
                       (PyFloat DEFAULT_TEMPERATURE))
                    tt None (PyStr DEFAULT_SYSTEM_PROMPT)) eq_refl).
  reflexivity.
Defined.

(** The provider is down: the fallback, and a log that is longer. *)
Lemma turn_outcome_witness :
  let self := agent_k (X:=env_flaky) (PyStr "k") tt None in
  let w' := mkWorld (X:=env_flaky)
              [(ERROR, "Error generating response: Connection error.");
               (ERROR, "Error processing message: Connection error.")]
              [request_k [system_k; user_says "Hello"]] 1%nat in
  (process_message_try self "Hello" (world0 (X:=env_flaky) 0%nat) = (Ok FALLBACK_RESULT, w')
   /\ log w' = log (world0 (X:=env_flaky) 0%nat))
  \/ (exists e w1,
        TurnFails self "Hello" (world0 (X:=env_flaky) 0%nat) e w1
        /\ FALLBACK_RESULT = FALLBACK_RESULT
        /\ log w' = (log w1 ++ [(ERROR, ("Error processing message: " ++ exn_str e)%string)])%list
        /\ log w' <> log (world0 (X:=env_flaky) 0%nat)).
Proof.
  intros self w'.
  exact (turn_outcome self "Hello" (world0 (X:=env_flaky) 0%nat) FALLBACK_RESULT w' eq_refl).
Defined.

Lemma sources_mean_success_witness :
  let self := agent_k (X:=env_ok) (PyStr "k") tt
                (Some (store_returning (PyStr "Paris is the capital of France"))) in
  exists w1,
    retrieve_context self "What is the capital of France?" (world0 (X:=env_ok) 0%nat)
    = (Ok [mkDocument "Paris is the capital of France"], w1).
Proof.
  intros self.
  refine (proj2 (sources_mean_success self "What is the capital of France?"
                   (world0 (X:=env_ok) 0%nat)
                   (mkPipelineResult (PyStr "Hi there")
                      [mkDocument "Paris is the capital of France"])
                   (mkWorld (X:=env_ok) []
                      [request_k [system_k;
                                  mkChatDict "system"
                                    (PyStr ("Context:" ++ NL
                                            ++ "Paris is the capital of France"));
                                  user_says "What is the capital of France?"]]
                      2%nat)
                   eq_refl _)).
  discriminate.
Defined.

(** [{"api_key": "k", "system_prompt": None}] is accepted; every turn of the
    agent it builds is the fallback, though the provider would answer. *)
Lemma refused_prompt_falls_back_witness :
  let mute := mkChatAgent (X:=env_ok)
                (mkGroqChatModel (X:=env_ok) (PyStr "k") (PyStr DEFAULT_MODEL)
                   (PyFloat DEFAULT_TEMPERATURE))
                tt None PyNone in
  fst (ChatAgent_init (X:=env_ok) (<[ "system_prompt" := PyNone ]> config_k)
         (world0 (X:=env_ok) 0%nat)) = Ok mute
  /\ process_message mute "Hello" (world0 (X:=env_ok) 0%nat) =
       (Ok FALLBACK_RESULT,
        mkWorld (X:=env_ok)
          [(ERROR, "Error processing message: 1 validation error for SystemMessage")]
          [] 0%nat).
Proof.
  intros mute. split; [reflexivity|].
  exact (proj1 (refused_prompt_falls_back mute "Hello" (world0 (X:=env_ok) 0%nat) []
                  (world0 (X:=env_ok) 0%nat) eq_refl)
           (mkExn "ValidationError" "1 validation error for SystemMessage") eq_refl).
Defined.

Lemma assemble_forgets_boundaries_witness :
  assemble (PyStr "Be brief.") [mkDocument "a"; mkDocument "b"; mkDocument "c"] "hi" =
  assemble (PyStr "Be brief.") [mkDocument ("a" ++ NL ++ "b"); mkDocument "c"] "hi".
Proof.
  refine (assemble_forgets_boundaries (PyStr "Be brief.")
            [mkDocument "a"; mkDocument "b"] [mkDocument "c"] "hi" _ _); discriminate.
Defined.

Lemma life_cycle_witness :
  let self := agent_k (X:=env_ok) (PyStr "k") tt None in
  let mm := store_returning (X:=env_ok) (PyStr "Paris") in
  fst ((do a <- initialize self mm; cleanup a) (world0 (X:=env_ok) 0%nat)) = Ok self.
Proof.
  intros self mm.
  exact (proj1 (proj2 (proj2 (life_cycle self mm mm (world0 (X:=env_ok) 0%nat)))) eq_refl).
Defined.

(** A manager that is falsy, though it has the method, is not queried. *)
Lemma unbound_never_queries_witness :
  let mm := mkMemoryManager (X:=env_ok) false
              (Some (fun _ x => (Raise ConnectionError, x))) in
  let self := agent_k (X:=env_ok) (PyStr "k") tt (Some mm) in
  retrieve_context self "Hello" (world0 (X:=env_ok) 0%nat)
  = (Ok [], world0 (X:=env_ok) 0%nat).
Proof.
  intros mm self.
  exact (proj2 (unbound_never_queries self "Hello" (world0 (X:=env_ok) 0%nat))
           mm eq_refl (or_introl eq_refl)).
Defined.

(** No [agent] section in the configuration file. *)
Lemma initialize_without_api_key_witness :
  fst (initialize_chat_system (X:=env_ok) (Y:=shell_no_key)
         (front0 (X:=env_ok) 0%nat no_session)) = Ok None
  /\ ui (snd (initialize_chat_system (X:=env_ok) (Y:=shell_no_key)
                (front0 (X:=env_ok) 0%nat no_session)))
     = [st_error "Error initializing chat system: Groq API key is not configured"].
Proof.
  rewrite (proj1 (initialize_without_api_key (X:=env_ok) (Y:=shell_no_key)
                    (front0 (X:=env_ok) 0%nat no_session) ∅ 0%nat
                    (store_returning (PyStr "Paris is the capital of France")) 0%nat
                    eq_refl eq_refl eq_refl)).
  split; reflexivity.
Defined.

Lemma initialize_chat_system_success_witness :
  let f := front0 (X:=env_ok) 0%nat no_session in
  let w3 := mkWorld (X:=env_ok)
              [(INFO, "Successfully initialized Groq chat model with model: None")]
              [] 2%nat in
  exists f',
    initialize_chat_system (X:=env_ok) (Y:=shell_ok) f
    = (Ok (Some (agent_built (Some paris_store))), f')
    /\ ui f' = ui f
    /\ length (stdout f') = length (stdout f) + 4
    /\ ext (core f') = ext w3
    /\ log (core f') =
       (log (core f) ++
        [(INFO, ("Successfully initialized Groq chat model with model: "
                 ++ py_str (X:=env_ok) (dict_get (section_of config_file_k "agent") "model"))%string);
         (INFO, "Chat agent initialized with memory manager")])%list.
Proof.
  intros f w3.
  exact (initialize_chat_system_success (X:=env_ok) (Y:=shell_ok) f config_file_k 0%nat
           paris_store 0%nat (agent_built None) w3 eq_refl eq_refl eq_refl).
Defined.

(** "Hello" in a session that already holds a greeting. *)
Lemma transcript_growth_witness :
  let f := front0 (X:=env_ok) 0%nat
             (session_of greeting (Some (agent_built None))) in
  exists reply,
    ss_messages (session (snd (main (X:=env_ok) (Y:=shell_ok) (Some "Hello") false f)))
    = Some (greeting ++ [mkChatDict "user" (PyStr "Hello");
                         mkChatDict "assistant" reply])%list.
Proof.
  intros f.
  assert (main (X:=env_ok) (Y:=shell_ok) (Some "Hello") false f
          = (Ok Completed, snd (main (X:=env_ok) (Y:=shell_ok) (Some "Hello") false f)))
    as Hrun by (vm_compute; reflexivity).
  exact (proj2 (transcript_growth (X:=env_ok) (Y:=shell_ok) (Some "Hello") false f
                  Completed _ Hrun)).
Defined.

Lemma main_turn_witness :
  let f := front0 (X:=env_ok) 0%nat
             (session_of [] (Some (agent_built (Some paris_store)))) in
  session (snd (main (X:=env_ok) (Y:=shell_ok) (Some "Hello") false f))
  = session_of greeting (Some (agent_built (Some paris_store))).
Proof.
  intros f.
  rewrite (main_turn (X:=env_ok) (Y:=shell_ok) f (agent_built (Some paris_store)) "Hello"
             (mkPipelineResult (PyStr "Hi there")
                [mkDocument "Paris is the capital of France"])
             (mkWorld (X:=env_ok) []
                [mkRequest (PyStr DEFAULT_MODEL)
                   [mkChatDict "system" (PyStr DEFAULT_SYSTEM_PROMPT);
                    mkChatDict "system"
                      (PyStr ("Context:" ++ NL ++ "Paris is the capital of France"));
                    user_says "Hello"]
                   (PyFloat DEFAULT_TEMPERATURE) None]
                2%nat)
             eq_refl ltac:(discriminate) eq_refl).
  reflexivity.
Defined.

Lemma main_after_failed_init_witness :
  let f := front0 (X:=env_ok) 0%nat (session_of [] None) in
  session (snd (main (X:=env_ok) (Y:=shell_no_key) (Some "Hello") false f))
  = session_of
      [mkChatDict "user" (PyStr "Hello");
       mkChatDict "assistant"
         (PyStr ("❌ Error generating response: "
                 ++ "'NoneType' object has no attribute 'process_message'"))]
      None
  /\ core (snd (main (X:=env_ok) (Y:=shell_no_key) (Some "Hello") false f)) = core f.
Proof.
  intros f.
  rewrite (main_after_failed_init (X:=env_ok) (Y:=shell_no_key) f "Hello"
             eq_refl ltac:(discriminate)).
  split; reflexivity.
Defined.

Lemma main_idle_witness :
  let f := front0 (X:=env_ok) 0%nat
             (session_of greeting (Some (agent_built None))) in
  snd (main (X:=env_ok) (Y:=shell_ok) (Some "") false f)
  = mkFront (core f) []
      (HEADER ++ drawn_transcript greeting
       ++ [st_chat_input "Type your message here...";
           st_sidebar_button "🗑️ Clear Chat"; st_sidebar;
           st_markdown (PyStr "### 💡 Tips"); st_markdown (PyStr TIPS)])
      (session_of greeting (Some (agent_built None))).
Proof.
  intros f.
  rewrite (main_idle (X:=env_ok) (Y:=shell_ok) f (Some (agent_built None)) (Some "")
             eq_refl (or_intror eq_refl)).
  reflexivity.
Defined.

(** A prompt and a click on clear in one run: the provider is called, the
    transcript is empty afterwards. *)
Lemma main_clear_witness :
  let f := front0 (X:=env_ok) 0%nat
             (session_of greeting (Some (agent_built None))) in
  exists f',
    main (X:=env_ok) (Y:=shell_ok) (Some "Hello") true f = (Ok Rerun, f')
    /\ session f' = mkSessionState (Some []) (Some (Some (agent_built None)))
    /\ core f' = core (snd (main (X:=env_ok) (Y:=shell_ok) (Some "Hello") false f))
    /\ stdout f' = stdout f.
Proof.
  intros f.
  exact (main_clear (X:=env_ok) (Y:=shell_ok) f (Some (agent_built None)) (Some "Hello")
           eq_refl).
Defined.

Lemma main_first_run_without_key_witness :
  let f := front0 (X:=env_ok) 0%nat no_session in
  exists f',
    main (X:=env_ok) (Y:=shell_no_key) (Some "Hello") false f = (Ok Returned, f')
    /\ session f' = mkSessionState (Some (transcript (session f))) (Some None)
    /\ ui f' =
       (ui f ++ HEADER ++
        [st_error "Error initializing chat system: Groq API key is not configured";
         st_error
           "Failed to initialize chat system. Please check your configuration and try again."])%list
    /\ sent (core f') = sent (core f).
Proof.
  intros f.
  exact (main_first_run_without_key (X:=env_ok) (Y:=shell_no_key) f (Some "Hello") false
           ∅ 0%nat paris_store 0%nat eq_refl eq_refl eq_refl eq_refl).
Defined.
